(** * rincon-py: the registry client, its error taxonomy and its session

    A shallow embedding of [rincon/models.py], [rincon/exceptions.py] and
    [rincon/client.py].

    - Python [int] is [Z]; [str] is [string] (the only character the client
      inspects is the ASCII slash, one byte in UTF-8).
    - A decoded JSON document is a [JSON] tree.
    - Exceptions are values of [Exception]; a Python call that may raise
      returns a [Result].
    - The registry server, the HTTP transport and the thread runtime are
      outside the client: they are an abstract [World] with the operations
      the client invokes on it.  Every invocation is recorded, in program
      order, in a trace of [Event]s.
    - [Route] objects handed to [register] are mutated in place, so they
      live in a store indexed by object identity. *)

From Stdlib Require Import ZArith Ascii String.
From stdpp Require Import base option list strings pretty gmap.

Set Warnings "-register-all".
Open Scope string_scope.

(** ** JSON values, as [resp.json()] yields them *)

Inductive JSON :=
  | JNull
  | JBool (b : bool)
  | JInt (n : Z)
  | JReal (literal : string)      (* a number with a fraction or exponent *)
  | JStr (s : string)
  | JArr (items : list JSON)
  | JObj (members : list (string * JSON)).

(** [dict.get(key)] on a decoded object *)
Fixpoint dict_get (members : list (string * JSON)) (key : string) : option JSON :=
  match members with
  | [] => None
  | (k, v) :: rest => if decide (k = key) then Some v else dict_get rest key
  end.

(** ** rincon/models.py *)

(** [datetime] values are carried around and never inspected; they are kept
    in their ISO-8601 text. *)
Definition datetime := string.

Module Service.
Record t := mk {
  id : Z;
  name : string;
  version : string;
  endpoint : string;
  health_check : string;
  updated_at : option datetime;
  created_at : option datetime
}.

(** [service.model_dump(exclude={"id", "updated_at", "created_at"})] *)
Definition model_dump (s : t) : JSON :=
  JObj [("name", JStr (name s)); ("version", JStr (version s));
        ("endpoint", JStr (endpoint s)); ("health_check", JStr (health_check s))].
End Service.

Module Route.
Record t := mk {
  id : string;
  route : string;
  method : string;
  service_name : string;
  created_at : option datetime
}.

(** [route.service_name = v] *)
Definition set_service_name (v : string) (r : t) : t :=
  mk (id r) (route r) (method r) v (created_at r).

(** [route.model_dump(exclude={"id", "created_at"})] *)
Definition model_dump (r : t) : JSON :=
  JObj [("route", JStr (route r)); ("method", JStr (method r));
        ("service_name", JStr (service_name r))].
End Route.

(** ** rincon/exceptions.py *)

Inductive RinconClass :=
  | cls_RinconError
  | cls_RinconConnectionError
  | cls_RinconAuthError
  | cls_RinconNotFoundError
  | cls_RinconValidationError
  | cls_RinconConflictError.

(** An instance of [RinconError] or of one of its subclasses.  [message] is
    whatever object the raiser passed: a [str], or the JSON value found under
    the key "message" of an error body. *)
Record RinconExc := mkRinconExc {
  exc_class : RinconClass;
  message : JSON;
  status_code : option Z
}.

Definition RinconError (message : JSON) (status_code : option Z) : RinconExc :=
  mkRinconExc cls_RinconError message status_code.
Definition RinconConnectionError (message : JSON) : RinconExc :=
  mkRinconExc cls_RinconConnectionError message None.
Definition RinconAuthError (message : JSON) : RinconExc :=
  mkRinconExc cls_RinconAuthError message (Some 401%Z).
Definition RinconNotFoundError (message : JSON) : RinconExc :=
  mkRinconExc cls_RinconNotFoundError message (Some 404%Z).
Definition RinconValidationError (message : JSON) : RinconExc :=
  mkRinconExc cls_RinconValidationError message (Some 400%Z).
Definition RinconConflictError (message : JSON) : RinconExc :=
  mkRinconExc cls_RinconConflictError message (Some 500%Z).

(** Everything the modelled code can raise. *)
Inductive Exception :=
  | Rincon (e : RinconExc)
  | HttpxError (what : string)       (* an httpx error [_request] does not catch *)
  | JSONDecodeError                  (* [resp.json()] on a body that is not JSON *)
  | ValidationError (model : string) (* pydantic's, from [model_validate] *)
  | AttributeError (attr : string).

Inductive Result (A : Type) :=
  | Ok (a : A)
  | Raise (e : Exception).
Arguments Ok {A} a.
Arguments Raise {A} e.

(** ** The HTTP exchange *)

Record Request := mkRequest {
  req_method : string;
  req_path : string;
  req_params : option (list (string * string));
  req_json : option JSON;
  req_auth : option (string * string)
}.

(** [resp_json] is what [resp.json()] returns; [None] when it raises. *)
Record Response := mkResponse {
  resp_status_code : Z;
  resp_text : string;
  resp_json : option JSON
}.

(** What [httpx.Client.request] does: returns a response, or raises. *)
Inductive Outcome :=
  | Responded (resp : Response)
  | ConnectError
  | TimeoutException
  | OtherHttpxError (what : string).

(** ** RinconClient._raise_for_status *)

(** The message the error carries:
    [try: message = resp.json().get("message", resp.text)
     except Exception: message = resp.text] *)
Definition error_message (resp : Response) : JSON :=
  match resp_json resp with
  | Some (JObj members) => default (JStr (resp_text resp)) (dict_get members "message")
  | _ => JStr (resp_text resp)
  end.

Definition _raise_for_status (resp : Response) : Result unit :=
  if decide (resp_status_code resp = 200%Z) then Ok tt
  else
    let message := error_message resp in
    match resp_status_code resp with
    | 401%Z => Raise (Rincon (RinconAuthError message))
    | 400%Z => Raise (Rincon (RinconValidationError message))
    | 404%Z => Raise (Rincon (RinconNotFoundError message))
    | 500%Z => Raise (Rincon (RinconConflictError message))
    | _ => Raise (Rincon (RinconError message (Some (resp_status_code resp))))
    end.

(** ** The client object *)

(** A handle on a [threading.Thread]. *)
Definition thread := nat.

(** The fields [__init__] creates.  [_client], the [httpx.Client], is part
    of the world; [_heartbeat_stop_event] is the flag of the
    [threading.Event]. *)
Record RinconClient := mkClient {
  _base_url : string;
  _auth : string * string;
  _service : option Service.t;
  _routes : list Route.t;
  _heartbeat_thread : option thread;
  _heartbeat_stop_event : bool
}.

Definition set_service (v : option Service.t) (c : RinconClient) : RinconClient :=
  mkClient (_base_url c) (_auth c) v (_routes c) (_heartbeat_thread c) (_heartbeat_stop_event c).
Definition set_routes (v : list Route.t) (c : RinconClient) : RinconClient :=
  mkClient (_base_url c) (_auth c) (_service c) v (_heartbeat_thread c) (_heartbeat_stop_event c).
Definition set_heartbeat_thread (v : option thread) (c : RinconClient) : RinconClient :=
  mkClient (_base_url c) (_auth c) (_service c) (_routes c) v (_heartbeat_stop_event c).
Definition set_heartbeat_stop_event (v : bool) (c : RinconClient) : RinconClient :=
  mkClient (_base_url c) (_auth c) (_service c) (_routes c) (_heartbeat_thread c) v.

(** [s.rstrip("/")] *)
Fixpoint rstrip_slash (s : string) : string :=
  match s with
  | EmptyString => EmptyString
  | String c rest =>
      match rstrip_slash rest with
      | EmptyString => if decide (c = "/"%char) then EmptyString else String c EmptyString
      | kept => String c kept
      end
  end.

(** [RinconClient(url, auth_user, auth_password)]; the request timeout only
    configures the transport. *)
Definition __init__ (url auth_user auth_password : string) : RinconClient :=
  {| _base_url := rstrip_slash url;
     _auth := (auth_user, auth_password);
     _service := None;
     _routes := [];
     _heartbeat_thread := None;
     _heartbeat_stop_event := false |}.

(** *** Attribute lookup on an instance

    What [client.<name>] evaluates to for a name that is not one of the
    special names every [object] has: an instance attribute set by
    [__init__], else a function of the class body, else [AttributeError]
    (the class defines no [__getattr__] and has no base class but
    [object]). *)

Inductive Attr :=
  | StrAttr (s : string)
  | AuthAttr (credentials : string * string)
  | HttpClientAttr
  | ServiceAttr (s : option Service.t)
  | RoutesAttr (rs : list Route.t)
  | ThreadAttr (t : option thread)
  | EventAttr (flag : bool)
  | BoundMethod (name : string).

Definition RinconClient_functions : list string :=
  ["__init__"; "close"; "__enter__"; "__exit__"; "_request"; "_raise_for_status";
   "ping"; "get_all_services"; "get_services_by_name"; "get_service_by_id";
   "register_service"; "remove_service"; "get_all_routes";
   "get_routes_for_service"; "get_route"; "get_routes_by_path"; "register_route";
   "match_route"; "register"; "deregister"; "start_heartbeat"; "stop_heartbeat"].

Definition getattr (c : RinconClient) (name : string) : Result Attr :=
  if decide (name = "_base_url") then Ok (StrAttr (_base_url c))
  else if decide (name = "_auth") then Ok (AuthAttr (_auth c))
  else if decide (name = "_client") then Ok HttpClientAttr
  else if decide (name = "_service") then Ok (ServiceAttr (_service c))
  else if decide (name = "_routes") then Ok (RoutesAttr (_routes c))
  else if decide (name = "_heartbeat_thread") then Ok (ThreadAttr (_heartbeat_thread c))
  else if decide (name = "_heartbeat_stop_event") then Ok (EventAttr (_heartbeat_stop_event c))
  else if decide (name ∈ RinconClient_functions) then Ok (BoundMethod name)
  else Raise (AttributeError name).

(** ** Effects *)

(** The externally visible actions of the client, in program order. *)
Inductive Event :=
  | EvRequest (req : Request) (out : Outcome)
  | EvThreadStart (t : thread)
  | EvJoin (t : thread).

(** A computation over a state [S] that returns or raises; the state
    reached is kept in both cases, as a Python exception undoes nothing. *)
Definition Py (S A : Type) : Type := S → Result A * S.

Definition py_ret {S A} (a : A) : Py S A := λ s, (Ok a, s).
Definition py_raise {S A} (e : Exception) : Py S A := λ s, (Raise e, s).
Definition py_bind {S A B} (f : A → Py S B) (c : Py S A) : Py S B :=
  λ s, match c s with
       | (Ok a, s') => f a s'
       | (Raise e, s') => (Raise e, s')
       end.

Declare Scope py_scope.
Notation "x ← c ; k" := (py_bind (λ x, k) c)
  (at level 20, c at level 100, k at level 200, only parsing) : py_scope.
Notation "c ;; k" := (py_bind (λ _, k) c)
  (at level 100, k at level 200, right associativity, only parsing) : py_scope.
Delimit Scope py_scope with py.

(** [route[1:] if route.startswith("/") else route] *)
Definition strip_leading_slash (route : string) : string :=
  match route with
  | String c rest => if decide (c = "/"%char) then rest else route
  | EmptyString => route
  end.

(** [Model.model_validate(data)] *)
Definition validated {A} (model : string) (validate : JSON → option A)
    (data : JSON) : Result A :=
  match validate data with
  | Some a => Ok a
  | None => Raise (ValidationError model)
  end.

(** [Model.model_validate(resp.json())]: the body must be JSON, and the
    document must validate. *)
Definition decode {A} (model : string) (validate : JSON → option A)
    (resp : Response) : Result A :=
  match resp_json resp with
  | None => Raise JSONDecodeError
  | Some data => validated model validate data
  end.

(** the [params] dict of [get_route], in insertion order *)
Definition get_route_params (route : string) (method service : option string)
    : list (string * string) :=
  ([("route", route)]
   ++ match method with Some v => [("method", v)] | None => [] end
   ++ match service with Some v => [("service", v)] | None => [] end)%list.

(** Identity of a caller-owned [Route] object. *)
Definition loc := nat.

Section Client.
(** The server, the transport and the thread runtime. *)
Context {World : Type}.
(** the float number of seconds between two heartbeats *)
Context {Seconds : Type}.
(** [httpx.Client.request] *)
Variable send : Request → World → Outcome * World.
(** [threading.Thread(target=_heartbeat_loop, ...)] followed by [.start()] *)
Variable thread_start : Seconds → World → thread * World.
(** [Thread.is_alive()] *)
Variable is_alive : thread → World → bool.
(** [Thread.join(timeout=5.0)] *)
Variable join : thread → World → World.
(** pydantic's [Service.model_validate] and [Route.model_validate] *)
Variable Service_model_validate : JSON → option Service.t.
Variable Route_model_validate : JSON → option Route.t.

Record IO := mkIO { world : World; trace : list Event }.

(** The client object, the caller's [Route] objects, and the outside. *)
Record Machine := mkMachine {
  self : RinconClient;
  heap : gmap loc Route.t;
  io : IO
}.

Definition get_self : Py Machine RinconClient := λ m, (Ok (self m), m).
Definition modify_self (f : RinconClient → RinconClient) : Py Machine unit :=
  λ m, (Ok tt, mkMachine (f (self m)) (heap m) (io m)).
(** run a method that only reads [self] *)
Definition call {A} (f : RinconClient → Py IO A) : Py Machine A :=
  λ m, let '(r, s) := f (self m) (io m) in (r, mkMachine (self m) (heap m) s).

(** *** HTTP helpers *)

Definition _request (self : RinconClient) (method path : string)
    (json : option JSON) (params : option (list (string * string)))
    (auth : bool) : Py IO Response :=
  λ s,
    let req := mkRequest method path params json
                 (if auth then Some (_auth self) else None) in
    let '(out, w) := send req (world s) in
    let s' := mkIO w ((trace s ++ [EvRequest req out])%list) in
    match out with
    | ConnectError =>
        (Raise (Rincon (RinconConnectionError
           (JStr ("Failed to connect to Rincon at " +:+ _base_url self)))), s')
    | TimeoutException =>
        (Raise (Rincon (RinconConnectionError
           (JStr ("Request to Rincon timed out: " +:+ path)))), s')
    | OtherHttpxError what => (Raise (HttpxError what), s')
    | Responded resp =>
        match _raise_for_status resp with
        | Ok _ => (Ok resp, s')
        | Raise e => (Raise e, s')
        end
    end.

(** *** Services *)

Definition register_service (self : RinconClient) (service : Service.t)
    : Py IO Service.t :=
  (resp ← _request self "POST" "/rincon/services"
            (Some (Service.model_dump service)) None true;
   λ s, (decode "Service" Service_model_validate resp, s))%py.

Definition remove_service (self : RinconClient) (service_id : Z) : Py IO unit :=
  (_request self "DELETE" ("/rincon/services/" +:+ pretty service_id)
     None None true;;
   py_ret tt)%py.

(** *** Routes *)

Definition get_route (self : RinconClient) (route : string)
    (method service : option string) : Py IO Route.t :=
  let params := get_route_params route method service in
  (resp ← _request self "GET" "/rincon/routes" None (Some params) false;
   λ s,
     match resp_json resp with
     | None => (Raise JSONDecodeError, s)
     | Some (JArr []) =>
         (Raise (Rincon (RinconNotFoundError
            (JStr ("No route " +:+ route +:+ " found")))), s)
     | Some (JArr (first :: _)) =>
         (validated "Route" Route_model_validate first, s)
     | Some data =>
         (validated "Route" Route_model_validate data, s)
     end)%py.

Definition register_route (self : RinconClient) (route : Route.t)
    : Py IO Route.t :=
  (resp ← _request self "POST" "/rincon/routes"
            (Some (Route.model_dump route)) None true;
   λ s, (decode "Route" Route_model_validate resp, s))%py.

(** *** Route matching *)

Definition match_route (self : RinconClient) (route method : string)
    : Py IO Service.t :=
  let route := strip_leading_slash route in
  (resp ← _request self "GET" "/rincon/match" None
            (Some [("route", route); ("method", method)]) false;
   λ s, (decode "Service" Service_model_validate resp, s))%py.

(** *** Heartbeat *)

Definition no_service_registered : Exception :=
  Rincon (RinconError (JStr "No service registered with this client") None).

(** [self._heartbeat_thread is not None and self._heartbeat_thread.is_alive()] *)
Definition heartbeat_running (m : Machine) : bool :=
  match _heartbeat_thread (self m) with
  | Some t => is_alive t (world (io m))
  | None => false
  end.

Definition start_heartbeat (interval : Seconds) : Py Machine unit :=
  λ m,
    match _service (self m) with
    | None => (Raise no_service_registered, m)
    | Some _ =>
        if heartbeat_running m then (Ok tt, m)
        else
          let c := set_heartbeat_stop_event false (self m) in
          let '(t, w) := thread_start interval (world (io m)) in
          (Ok tt,
           mkMachine (set_heartbeat_thread (Some t) c) (heap m)
             (mkIO w (trace (io m) ++ [EvThreadStart t])%list))
    end.

Definition stop_heartbeat : Py Machine unit :=
  λ m,
    match _heartbeat_thread (self m) with
    | None => (Ok tt, m)
    | Some t =>
        if negb (is_alive t (world (io m))) then (Ok tt, m)
        else
          let c := set_heartbeat_stop_event true (self m) in
          let w := join t (world (io m)) in
          (Ok tt,
           mkMachine (set_heartbeat_thread None c) (heap m)
             (mkIO w (trace (io m) ++ [EvJoin t])%list))
    end.

(** *** High-level registration *)

(** [route.service_name = name] on the object at [route]; an element of
    the list that is not a [Route] has no such attribute to dump. *)
Definition assign_service_name (route : loc) (name : string)
    : Py Machine Route.t :=
  λ m,
    match heap m !! route with
    | Some r =>
        let r' := Route.set_service_name name r in
        (Ok r', mkMachine (self m) (<[route := r']> (heap m)) (io m))
    | None => (Raise (AttributeError "service_name"), m)
    end.

(** the body of [for route in routes or []] *)
Fixpoint register_each (registered_service : Service.t) (routes : list loc)
    : Py Machine unit :=
  match routes with
  | [] => py_ret tt
  | route :: rest =>
      (r ← assign_service_name route (Service.name registered_service);
       registered_route ← call (λ self, register_route self r);
       modify_self (λ c, set_routes (_routes c ++ [registered_route])%list c);;
       register_each registered_service rest)%py
  end.

Definition register (service : Service.t) (routes : option (list loc))
    : Py Machine Service.t :=
  (registered_service ← call (λ self, register_service self service);
   modify_self (set_service (Some registered_service));;
   modify_self (set_routes []);;
   register_each registered_service (default [] routes);;
   py_ret registered_service)%py.

Definition deregister : Py Machine unit :=
  λ m,
    match _service (self m) with
    | None => (Raise no_service_registered, m)
    | Some _ =>
        (stop_heartbeat;;
         c ← get_self;
         match _service c with
         | Some service =>
             call (λ self, remove_service self (Service.id service))
         | None => py_raise (AttributeError "id")
         end;;
         modify_self (set_service None);;
         modify_self (set_routes []))%py m
    end.

(** *** Vocabulary of the statements below *)

(** the request [register_route] sends for [route] *)
Definition route_request (self : RinconClient) (route : Route.t) : Request :=
  mkRequest "POST" "/rincon/routes" None (Some (Route.model_dump route))
    (Some (_auth self)).

(** the request [remove_service] sends for [service_id] *)
Definition removal_request (self : RinconClient) (service_id : Z) : Request :=
  mkRequest "DELETE" ("/rincon/services/" +:+ pretty service_id) None None
    (Some (_auth self)).

(** The state of the outside after a request: the world the transport
    leaves, and the exchange appended to the trace. *)
Definition exchanged (req : Request) (s : IO) : IO :=
  mkIO (send req (world s)).2 (trace s ++ [EvRequest req (send req (world s)).1])%list.

(** [routes_accepted c name h routes s regs s']: starting from [s], the
    registry accepts one after the other the objects [routes] of the
    store [h], each submitted under the service name [name]; it answers
    with [regs] and is left in [s']. *)
Inductive routes_accepted (c : RinconClient) (name : string)
    (h : gmap loc Route.t) : list loc → IO → list Route.t → IO → Prop :=
  | accepted_nil s : routes_accepted c name h [] s [] s
  | accepted_cons route r rest s registered s1 regs s2 :
      h !! route = Some r →
      register_route c (Route.set_service_name name r) s = (Ok registered, s1) →
      routes_accepted c name h rest s1 regs s2 →
      routes_accepted c name h (route :: rest) s (registered :: regs) s2.

End Client.

(** the JSON bodies of the route registrations found in a trace *)
Definition route_bodies (tr : list Event) : list JSON :=
  omap (λ ev,
          match ev with
          | EvRequest req _ =>
              if decide (req_method req = "POST" ∧ req_path req = "/rincon/routes")
              then req_json req else None
          | _ => None
          end) tr.

(** the service names those bodies carry *)
Definition submitted_service_names (tr : list Event) : list (option JSON) :=
  (λ body, match body with
           | JObj members => dict_get members "service_name"
           | _ => None
           end) <$> route_bodies tr.

(** [renamed name h0 h]: the store [h] is [h0] where some objects have had
    their [service_name] set to [name]. *)
Definition renamed (name : string) (h0 h : gmap loc Route.t) : Prop :=
  ∀ l, h !! l = h0 !! l ∨ h !! l = Route.set_service_name name <$> h0 !! l.

(** the number of threads a trace starts *)
Definition threads_started (tr : list Event) : nat :=
  length (List.filter (λ ev, match ev with EvThreadStart _ => true | _ => false end) tr).

Arguments mkIO {World} world trace.
Arguments mkMachine {World} self heap io.

(** ** A scripted registry, to run the client

    The transport answers each request with the next scripted outcome (and
    refuses the connection once the script is exhausted); the thread table
    records which started threads are alive; a joined thread has seen the
    stop event and ended.  The validators accept the documents the registry
    sends: objects with the fields of the model, of the right JSON type. *)
Module Mock.
Record World := mk { pending : list Outcome; threads : list bool }.

Definition send (req : Request) (w : World) : Outcome * World :=
  match pending w with
  | [] => (ConnectError, w)
  | out :: rest => (out, mk rest (threads w))
  end.

Definition thread_start (interval : Z) (w : World) : thread * World :=
  (length (threads w), mk (pending w) (threads w ++ [true])%list).

Definition is_alive (t : thread) (w : World) : bool :=
  default false (threads w !! t).

Definition join (t : thread) (w : World) : World :=
  mk (pending w) (<[t := false]> (threads w)).

Definition str_field (members : list (string * JSON)) (key : string)
    : option string :=
  match dict_get members key with
  | Some (JStr s) => Some s
  | _ => None
  end.

Definition time_field (members : list (string * JSON)) (key : string)
    : option (option datetime) :=
  match dict_get members key with
  | Some (JStr s) => Some (Some s)
  | Some JNull | None => Some None
  | _ => None
  end.

Definition Service_model_validate (data : JSON) : option Service.t :=
  match data with
  | JObj members =>
      id ← match dict_get members "id" with
           | Some (JInt n) => Some n
           | None => Some 0%Z
           | _ => None
           end;
      name ← str_field members "name";
      version ← str_field members "version";
      endpoint ← str_field members "endpoint";
      health_check ← str_field members "health_check";
      updated_at ← time_field members "updated_at";
      created_at ← time_field members "created_at";
      Some (Service.mk id name version endpoint health_check updated_at created_at)
  | _ => None
  end.

Definition Route_model_validate (data : JSON) : option Route.t :=
  match data with
  | JObj members =>
      id ← match dict_get members "id" with
           | Some (JStr s) => Some s
           | None => Some ""
           | _ => None
           end;
      route ← str_field members "route";
      method ← str_field members "method";
      service_name ← str_field members "service_name";
      created_at ← time_field members "created_at";
      Some (Route.mk id route method service_name created_at)
  | _ => None
  end.

(** a 200 response carrying [data] *)
Definition ok_json (data : JSON) : Outcome :=
  Responded (mkResponse 200 "" (Some data)).

(** a response with status [code] and body [{"message": text}] *)
Definition error_json (code : Z) (text : string) : Outcome :=
  Responded (mkResponse code text (Some (JObj [("message", JStr text)]))).

Definition start (c : RinconClient) (objects : list (loc * Route.t))
    (script : list Outcome) : Machine :=
  mkMachine c (list_to_map objects) (mkIO (mk script []) []).

(** the documents and objects of [tests/conftest.py] and [tests/test_client.py] *)
Definition SAMPLE_SERVICE : JSON :=
  JObj [("id", JInt 820522); ("name", JStr "service_a"); ("version", JStr "1.0.0");
        ("endpoint", JStr "http://localhost:8080");
        ("health_check", JStr "http://localhost:8080/health");
        ("updated_at", JStr "2024-08-04T19:32:40.109239344-07:00");
        ("created_at", JStr "2024-08-04T19:32:40.109239386-07:00")].

Definition SAMPLE_ROUTE : JSON :=
  JObj [("id", JStr "/users-[GET,POST]"); ("route", JStr "/users");
        ("method", JStr "GET,POST"); ("service_name", JStr "service_a");
        ("created_at", JStr "2024-08-04T19:32:40.109239344-07:00")].

Definition client : RinconClient :=
  __init__ "http://localhost:10311" "admin" "admin".

Definition svc : Service.t :=
  Service.mk 0 "Service A" "1.0.0" "http://localhost:8080"
    "http://localhost:8080/health" None None.

Definition registered_svc : Service.t :=
  Service.mk 820522 "service_a" "1.0.0" "http://localhost:8080"
    "http://localhost:8080/health"
    (Some "2024-08-04T19:32:40.109239344-07:00")
    (Some "2024-08-04T19:32:40.109239386-07:00").

Definition registered_route : Route.t :=
  Route.mk "/users-[GET,POST]" "/users" "GET,POST" "service_a"
    (Some "2024-08-04T19:32:40.109239344-07:00").

Definition register := register send Service_model_validate Route_model_validate.
Definition deregister := deregister send is_alive join.
Definition start_heartbeat := start_heartbeat thread_start is_alive.
Definition stop_heartbeat := @stop_heartbeat World is_alive join.
Definition match_route := match_route send Service_model_validate.
Definition get_route := get_route send Route_model_validate.
End Mock.

(** * The rest of the client *)

Module Ping.
Record t := mk { message : string; services : Z; routes : Z }.
End Ping.

(** [[Model.model_validate(x) for x in items]]: the elements are validated
    in order and the first that fails raises. *)
Fixpoint validate_each {A} (model : string) (validate : JSON → option A)
    (items : list JSON) : Result (list A) :=
  match items with
  | [] => Ok []
  | x :: rest =>
      match validated model validate x with
      | Raise e => Raise e
      | Ok a =>
          match validate_each model validate rest with
          | Ok l => Ok (a :: l)
          | Raise e => Raise e
          end
      end
  end.

(** [[M.model_validate(x) for x in data] if isinstance(data, list)
     else [M.model_validate(data)]] *)
Definition validate_list_or_one {A} (model : string) (validate : JSON → option A)
    (data : JSON) : Result (list A) :=
  match data with
  | JArr items => validate_each model validate items
  | _ =>
      match validated model validate data with
      | Ok a => Ok [a]
      | Raise e => Raise e
      end
  end.

(** The outcome of a method that iterates over [resp.json()] without
    looking at its type: besides the exceptions of [Exception], the
    [TypeError] of a [for] over a value that is not iterable. *)
Inductive Listing (A : Type) :=
  | Listed (items : list A)
  | ListingRaised (e : Exception)
  | NotIterable.
Arguments Listed {A} items.
Arguments ListingRaised {A} e.
Arguments NotIterable {A}.

Section Reads.
Context {World : Type}.
Variable send : Request → World → Outcome * World.
Variable is_alive : thread → World → bool.
Variable join : thread → World → World.
(** [httpx.Client.close] *)
Variable http_close : World → World.
Variable Service_model_validate : JSON → option Service.t.
Variable Route_model_validate : JSON → option Route.t.
Variable Ping_model_validate : JSON → option Ping.t.
(** the one-character strings a [for] over a [str] yields *)
Variable str_items : string → list string.

(** What [for x in data] ranges over: the elements of a list, the keys of
    a dict, the characters of a str; [None] when [data] is not iterable. *)
Definition py_iter (data : JSON) : option (list JSON) :=
  match data with
  | JArr items => Some items
  | JObj members => Some (JStr <$> members.*1)
  | JStr s => Some (JStr <$> str_items s)
  | _ => None
  end.

(** [[Model.model_validate(x) for x in resp.json()]] *)
Definition listing {A} (model : string) (validate : JSON → option A)
    (resp : Response) : Listing A :=
  match resp_json resp with
  | None => ListingRaised JSONDecodeError
  | Some data =>
      match py_iter data with
      | None => NotIterable
      | Some items =>
          match validate_each model validate items with
          | Ok l => Listed l
          | Raise e => ListingRaised e
          end
      end
  end.

(** a GET without credentials whose answer is iterated over *)
Definition get_listing {A} (self : RinconClient) (path : string)
    (model : string) (validate : JSON → option A) (s : @IO World)
    : Listing A * @IO World :=
  match _request send self "GET" path None None false s with
  | (Ok resp, s') => (listing model validate resp, s')
  | (Raise e, s') => (ListingRaised e, s')
  end.

Definition ping (self : RinconClient) : Py (@IO World) Ping.t :=
  (resp ← _request send self "GET" "/rincon/ping" None None false;
   λ s, (decode "Ping" Ping_model_validate resp, s))%py.

Definition get_all_services (self : RinconClient) :=
  get_listing self "/rincon/services" "Service" Service_model_validate.

Definition get_services_by_name (self : RinconClient) (name : string)
    : Py (@IO World) (list Service.t) :=
  (resp ← _request send self "GET" ("/rincon/services/" +:+ name) None None false;
   λ s,
     match resp_json resp with
     | None => (Raise JSONDecodeError, s)
     | Some data => (validate_list_or_one "Service" Service_model_validate data, s)
     end)%py.

Definition get_service_by_id (self : RinconClient) (service_id : Z)
    : Py (@IO World) Service.t :=
  (resp ← _request send self "GET" ("/rincon/services/" +:+ pretty service_id)
            None None false;
   λ s, (decode "Service" Service_model_validate resp, s))%py.

Definition get_all_routes (self : RinconClient) :=
  get_listing self "/rincon/routes" "Route" Route_model_validate.

Definition get_routes_for_service (self : RinconClient) (service_name : string) :=
  get_listing self ("/rincon/services/" +:+ service_name +:+ "/routes")
    "Route" Route_model_validate.

Definition get_routes_by_path (self : RinconClient) (route : string)
    : Py (@IO World) (list Route.t) :=
  (resp ← _request send self "GET" "/rincon/routes" None
            (Some [("route", route)]) false;
   λ s,
     match resp_json resp with
     | None => (Raise JSONDecodeError, s)
     | Some data => (validate_list_or_one "Route" Route_model_validate data, s)
     end)%py.

(** [close]: [self.stop_heartbeat(); self._client.close()] *)
Definition close : Py (@Machine World) unit :=
  (stop_heartbeat is_alive join;;
   λ m, (Ok tt,
         mkMachine (self m) (heap m)
           (mkIO (http_close (world (io m))) (trace (io m)))))%py.

(** [__enter__] returns the client itself; [__exit__] is [close]. *)
Definition __exit__ : Py (@Machine World) unit := close.

(** One turn of [_heartbeat_loop], between two tests of the stop event:
    [try: self.register_service(self._service); log
     except Exception: logger.warning(..., self._service.name, ...)].
    Whatever [register_service] raises is caught; with no current service
    the [try] fails before any request, on [None.model_dump], and the
    handler itself then raises, on [None.name]. *)
Definition heartbeat_turn : Py (@Machine World) unit :=
  λ m,
    match _service (self m) with
    | Some service =>
        let '(_, s) := register_service send Service_model_validate
                         (self m) service (io m) in
        (Ok tt, mkMachine (self m) (heap m) s)
    | None => (Raise (AttributeError "name"), m)
    end.

(** [n] turns of the loop: the stop event is found clear [n] times. *)
Fixpoint heartbeat_turns (n : nat) : Py (@Machine World) unit :=
  match n with
  | O => py_ret tt
  | S k => (heartbeat_turn;; heartbeat_turns k)%py
  end.

(** *** Vocabulary of the statements below *)

(** the request [register_service] sends for [service] *)
Definition service_request (self : RinconClient) (service : Service.t) : Request :=
  mkRequest "POST" "/rincon/services" None (Some (Service.model_dump service))
    (Some (_auth self)).

(** a GET without credentials *)
Definition read_request (path : string) (params : option (list (string * string)))
    : Request :=
  mkRequest "GET" path params None None.

End Reads.

(** [k] slashes *)
Fixpoint slashes (k : nat) : string :=
  match k with
  | O => EmptyString
  | S k' => String "/" (slashes k')
  end.

(** [renamed_at name h0 done h]: the store [h] is [h0] where exactly the
    objects of [done] have had their [service_name] set to [name]. *)
Definition renamed_at (name : string) (h0 : gmap loc Route.t) (done : list loc)
    (h : gmap loc Route.t) : Prop :=
  ∀ l, h !! l = if decide (l ∈ done)
                then Route.set_service_name name <$> h0 !! l
                else h0 !! l.

(** the requests of a trace, in order *)
Definition requests (tr : list Event) : list Request :=
  omap (λ ev, match ev with EvRequest req _ => Some req | _ => None end) tr.

(** The scripted registry, for the rest of the client. *)
Module MockReads.
Definition Ping_model_validate (data : JSON) : option Ping.t :=
  match data with
  | JObj members =>
      message ← Mock.str_field members "message";
      services ← match dict_get members "services" with
                 | Some (JInt n) => Some n
                 | _ => None
                 end;
      routes ← match dict_get members "routes" with
               | Some (JInt n) => Some n
               | _ => None
               end;
      Some (Ping.mk message services routes)
  | _ => None
  end.

(** the characters of an ASCII string *)
Fixpoint str_items (s : string) : list string :=
  match s with
  | EmptyString => []
  | String c rest => String c EmptyString :: str_items rest
  end.

(** a closed transport answers nothing more *)
Definition http_close (w : Mock.World) : Mock.World :=
  Mock.mk [] (Mock.threads w).

Definition io (script : list Outcome) : @IO Mock.World :=
  mkIO (Mock.mk script []) [].

Definition SAMPLE_PING : JSON :=
  JObj [("message", JStr "Rincon v2.2.0 is online!"); ("services", JInt 2);
        ("routes", JInt 6)].

(** a session that holds a registration *)
Definition registered_client : RinconClient :=
  set_routes [Mock.registered_route]
    (set_service (Some Mock.registered_svc) Mock.client).

(** that session with its heartbeat thread, number 0, alive *)
Definition beating (script : list Outcome) : @Machine Mock.World :=
  mkMachine (set_heartbeat_thread (Some 0) registered_client) ∅
    (mkIO (Mock.mk script [true]) [EvThreadStart 0]).

Definition ping := ping Mock.send Ping_model_validate.
Definition get_all_services :=
  get_all_services Mock.send Mock.Service_model_validate str_items.
Definition get_services_by_name :=
  get_services_by_name Mock.send Mock.Service_model_validate.
Definition get_service_by_id :=
  get_service_by_id Mock.send Mock.Service_model_validate.
Definition get_all_routes :=
  get_all_routes Mock.send Mock.Route_model_validate str_items.
Definition get_routes_by_path :=
  get_routes_by_path Mock.send Mock.Route_model_validate.
Definition close := close Mock.is_alive Mock.join http_close.
Definition heartbeat_turns := heartbeat_turns Mock.send Mock.Service_model_validate.
End MockReads.

(** * Properties *)

(** ** Status codes and the error taxonomy *)

Lemma error_message_of_body (resp : Response) members v :
  resp_json resp = Some (JObj members) →
  dict_get members "message" = Some v →
  error_message resp = v.
Proof. unfold error_message. by intros -> ->. Qed.

Lemma error_message_of_text (resp : Response) :
  resp_json resp = None → error_message resp = JStr (resp_text resp).
Proof. unfold error_message. by intros ->. Qed.

Lemma raise_for_status_other (resp : Response) :
  resp_status_code resp ∉ [200; 400; 401; 404; 500]%Z →
  _raise_for_status resp
  = Raise (Rincon (RinconError (error_message resp) (Some (resp_status_code resp)))).
Proof.
  intros Hcode. unfold _raise_for_status.
  case_decide as H200; [rewrite H200 in Hcode; set_solver|].
  destruct (resp_status_code resp) as [|p|p]; try reflexivity.
  do 9 (try (destruct p as [p|p|]; try reflexivity));
    exfalso; apply Hcode; repeat (first [apply list_elem_of_here | apply list_elem_of_further]).
Qed.

(** C1. A 200 response raises nothing.  A non-200 response raises the
    taxonomy member keyed by its status (401 the auth error, 400 the
    validation error, 404 the not-found error, 500 the conflict error), and
    any other status raises the generic [RinconError] carrying that very
    status; in each case the message is the one the server supplied: the
    "message" member of a JSON object body, else the raw response text. *)
Theorem raise_for_status_taxonomy (resp : Response) :
  (resp_status_code resp = 200%Z → _raise_for_status resp = Ok tt)
  ∧ (resp_status_code resp = 401%Z →
       _raise_for_status resp = Raise (Rincon (RinconAuthError (error_message resp))))
  ∧ (resp_status_code resp = 400%Z →
       _raise_for_status resp = Raise (Rincon (RinconValidationError (error_message resp))))
  ∧ (resp_status_code resp = 404%Z →
       _raise_for_status resp = Raise (Rincon (RinconNotFoundError (error_message resp))))
  ∧ (resp_status_code resp = 500%Z →
       _raise_for_status resp = Raise (Rincon (RinconConflictError (error_message resp))))
  ∧ (resp_status_code resp ∉ [200; 400; 401; 404; 500]%Z →
       _raise_for_status resp
       = Raise (Rincon (RinconError (error_message resp) (Some (resp_status_code resp)))))
  ∧ (∀ members text,
       resp_json resp = Some (JObj members) →
       dict_get members "message" = Some (JStr text) →
       error_message resp = JStr text)
  ∧ (resp_json resp = None → error_message resp = JStr (resp_text resp)).
Proof.
  unfold _raise_for_status.
  repeat split; try (by intros ->).
  - apply raise_for_status_other.
  - intros members text. apply error_message_of_body.
  - apply error_message_of_text.
Qed.

Lemma raise_for_status_taxonomy_witness :
  _raise_for_status
    (mkResponse 404 "No service with id 999999 found"
       (Some (JObj [("message", JStr "No service with id 999999 found")])))
  = Raise (Rincon (RinconNotFoundError (JStr "No service with id 999999 found")))
  ∧ _raise_for_status
      (mkResponse 503 "Service unavailable"
         (Some (JObj [("message", JStr "Service unavailable")])))
    = Raise (Rincon (RinconError (JStr "Service unavailable") (Some 503%Z))).
Proof.
  split.
  - destruct (raise_for_status_taxonomy
                (mkResponse 404 "No service with id 999999 found"
                   (Some (JObj [("message", JStr "No service with id 999999 found")]))))
      as (_ & _ & _ & H404 & _).
    apply H404. reflexivity.
  - destruct (raise_for_status_taxonomy
                (mkResponse 503 "Service unavailable"
                   (Some (JObj [("message", JStr "Service unavailable")]))))
      as (_ & _ & _ & _ & _ & Hother & _).
    apply Hother. apply (bool_decide_unpack _). vm_compute. exact I.
Defined.

(** ** The accessors the tests read *)

(** C2 (the code departs from it).  The claim, like [tests/test_client.py]
    ([test_initial_state], [test_routes_returns_copy]), reads the session
    through public accessors [service] and [routes].  The class defines
    neither: on every client, looking up either name raises
    [AttributeError], so there is no snapshot and no copy to speak of. *)
Theorem public_accessors_undefined (c : RinconClient) :
  getattr c "routes" = Raise (AttributeError "routes")
  ∧ getattr c "service" = Raise (AttributeError "service")
  ∧ getattr c "is_registered" = Raise (AttributeError "is_registered").
Proof. repeat split. Qed.

(** ** String handling of [match_route] *)

Lemma strip_leading_slash_cons (rest : string) :
  strip_leading_slash (String "/" rest) = rest.
Proof. reflexivity. Qed.

Lemma strip_leading_slash_id (route : string) :
  (∀ rest, route ≠ String "/" rest) → strip_leading_slash route = route.
Proof.
  destruct route as [|c rest]; [done|]. intros Hne. simpl.
  case_decide as Hc; [|done]. subst c. by destruct (Hne rest).
Qed.

Section ClientProperties.
Context {World Seconds : Type}.
Variable send : Request → World → Outcome * World.
Variable thread_start : Seconds → World → thread * World.
Variable is_alive : thread → World → bool.
Variable join : thread → World → World.
Variable Service_model_validate : JSON → option Service.t.
Variable Route_model_validate : JSON → option Route.t.

Local Abbreviation IO := (@IO World).
Local Abbreviation Machine := (@Machine World).

(** ** One request, one exchange *)

Lemma request_io c method path json params (auth : bool) (s : IO) :
  (_request send c method path json params auth s).2
  = exchanged send
      (mkRequest method path params json (if auth then Some (_auth c) else None)) s.
Proof.
  unfold _request, exchanged. destruct (send _ _) as [out w]; simpl.
  destruct out as [resp| | |]; try done. by destruct (_raise_for_status resp).
Qed.

Lemma request_responded c method path json params (auth : bool) (s : IO)
    (resp : Response) (w : World) :
  send (mkRequest method path params json (if auth then Some (_auth c) else None))
    (world s) = (Responded resp, w) →
  _request send c method path json params auth s
  = (match _raise_for_status resp with Ok _ => Ok resp | Raise e => Raise e end,
     exchanged send
       (mkRequest method path params json (if auth then Some (_auth c) else None)) s).
Proof.
  intros Hsend. unfold _request, exchanged. rewrite Hsend; simpl.
  by destruct (_raise_for_status resp).
Qed.

(** a continuation that leaves the state alone does not change where the
    computation ends *)
Lemma bind_pure_snd {S A B} (c : Py S A) (f : A → Result B) (s : S) :
  (py_bind (λ a s', (f a, s')) c s).2 = (c s).2.
Proof. unfold py_bind. by destruct (c s) as [[a|e] s']. Qed.

Lemma bind_pure_fst {S A B} (c : Py S A) (f : A → Result B) (s : S) :
  (py_bind (λ a s', (f a, s')) c s).1
  = match (c s).1 with Ok a => f a | Raise e => Raise e end.
Proof. unfold py_bind. by destruct (c s) as [[a|e] s']. Qed.

(** ** Route matching *)

(** C7. [match_route(path, method)] queries [/rincon/match] with the
    parameter [route] set to [path] less exactly one leading separator: a
    path that starts with a separator loses that one and no more, a path
    that does not is sent unchanged; so "/users/123" is sent as
    "users/123". *)
Theorem match_route_strips_one_separator c (route method : string) (s : IO) :
  (match_route send Service_model_validate c route method s).2
  = exchanged send
      (mkRequest "GET" "/rincon/match"
         (Some [("route", strip_leading_slash route); ("method", method)])
         None None) s
  ∧ (∀ rest, route = String "/" rest → strip_leading_slash route = rest)
  ∧ ((∀ rest, route ≠ String "/" rest) → strip_leading_slash route = route)
  ∧ strip_leading_slash "/users/123" = "users/123"
  ∧ strip_leading_slash "//users/123" = "/users/123".
Proof.
  repeat split.
  - unfold match_route. rewrite bind_pure_snd. apply request_io.
  - by intros rest ->.
  - apply strip_leading_slash_id.
Qed.

(** ** Looking one route up *)

(** C8. When the registry answers [get_route] with status 200 and an
    empty list, the call raises the not-found error; it raises it too on
    a 404 status; and when the 200 answer is a non-empty list, the call
    returns its first element validated as a [Route]. *)
Theorem get_route_empty_list_is_not_found c (route : string)
    (method service : option string) (s : IO) resp w :
  send (mkRequest "GET" "/rincon/routes"
          (Some (get_route_params route method service)) None None) (world s)
  = (Responded resp, w) →
  (resp_status_code resp = 200%Z → resp_json resp = Some (JArr []) →
     (get_route send Route_model_validate c route method service s).1
     = Raise (Rincon (RinconNotFoundError (JStr ("No route " +:+ route +:+ " found")))))
  ∧ (resp_status_code resp = 404%Z →
     (get_route send Route_model_validate c route method service s).1
     = Raise (Rincon (RinconNotFoundError (error_message resp))))
  ∧ (∀ first rest r,
       resp_status_code resp = 200%Z →
       resp_json resp = Some (JArr (first :: rest)) →
       Route_model_validate first = Some r →
       (get_route send Route_model_validate c route method service s).1 = Ok r).
Proof.
  intros Hsend. unfold get_route, py_bind.
  rewrite (request_responded _ _ _ _ _ false _ _ _ Hsend).
  unfold _raise_for_status.
  repeat split; [intros Hcode Hbody | intros Hcode | intros first rest r Hcode Hbody Hr];
    rewrite Hcode; simpl; try done.
  - by rewrite Hbody.
  - rewrite Hbody. unfold validated. by rewrite Hr.
Qed.

(** ** Heartbeat *)

Local Abbreviation start_heartbeat := (start_heartbeat thread_start is_alive).
Local Abbreviation stop_heartbeat := (@stop_heartbeat World is_alive join).
Local Abbreviation heartbeat_running := (@heartbeat_running World is_alive).
Local Abbreviation deregister := (deregister send is_alive join).

(** Stopping the heartbeat returns, and touches neither the registration
    nor the caller's objects. *)
Lemma stop_heartbeat_frame (m : Machine) :
  ∃ m1, stop_heartbeat m = (Ok tt, m1)
    ∧ _service (self m1) = _service (self m)
    ∧ _routes (self m1) = _routes (self m)
    ∧ _auth (self m1) = _auth (self m)
    ∧ _base_url (self m1) = _base_url (self m)
    ∧ heap m1 = heap m.
Proof.
  unfold stop_heartbeat.
  destruct (_heartbeat_thread (self m)) as [t|]; [|by exists m].
  destruct (is_alive t (world (io m))); simpl; [|by exists m].
  by eexists.
Qed.

Lemma start_heartbeat_fresh (interval : Seconds) (m : Machine) service :
  _service (self m) = Some service →
  heartbeat_running m = false →
  ∃ t w, thread_start interval (world (io m)) = (t, w)
    ∧ start_heartbeat interval m
      = (Ok tt,
         mkMachine
           (set_heartbeat_thread (Some t) (set_heartbeat_stop_event false (self m)))
           (heap m) (mkIO w (trace (io m) ++ [EvThreadStart t])%list)).
Proof.
  intros Hs Hrun. unfold start_heartbeat. rewrite Hs, Hrun.
  destruct (thread_start interval (world (io m))) as [t w]. by exists t, w.
Qed.

(** C9. With no service registered, [start_heartbeat] raises the session
    error and does nothing else: no request is sent and no thread is
    started.  With a service registered and a heartbeat thread alive, it
    returns at once and changes nothing; so two calls in a row, the first
    of which started a thread that is still alive, start one thread in
    all. *)
Theorem start_heartbeat_guards (interval : Seconds) (m : Machine) :
  (_service (self m) = None →
     start_heartbeat interval m = (Raise no_service_registered, m))
  ∧ (∀ service t,
       _service (self m) = Some service →
       _heartbeat_thread (self m) = Some t →
       is_alive t (world (io m)) = true →
       start_heartbeat interval m = (Ok tt, m))
  ∧ (∀ service m1 again,
       _service (self m) = Some service →
       heartbeat_running m = false →
       start_heartbeat interval m = (Ok tt, m1) →
       heartbeat_running m1 = true →
       start_heartbeat again m1 = (Ok tt, m1)
       ∧ threads_started (trace (io m1)) = S (threads_started (trace (io m)))).
Proof.
  split; [|split].
  - intros Hs. unfold start_heartbeat. by rewrite Hs.
  - intros service t Hs Ht Halive.
    unfold start_heartbeat, heartbeat_running.
    by rewrite Hs, Ht, Halive.
  - intros service m1 again Hs Hidle Hstart Hrun.
    destruct (start_heartbeat_fresh interval m service Hs Hidle)
      as (t & w & _ & Heq).
    rewrite Heq in Hstart. injection Hstart as <-. split.
    + unfold start_heartbeat. simpl. by rewrite Hs, Hrun.
    + simpl. unfold threads_started.
      rewrite List.filter_app, length_app. simpl. lia.
Qed.

(** ** Deregistration *)

Lemma remove_service_io c (service_id : Z) (s : IO) :
  (remove_service send c service_id s).2
  = exchanged send (removal_request c service_id) s.
Proof.
  unfold remove_service, py_bind.
  pose proof (request_io c "DELETE" ("/rincon/services/" +:+ pretty service_id)
                None None true s) as Hio.
  by destruct (_request _ _ _ _ _ _ _ _) as [[resp|e] s'].
Qed.

(** the two ways through [deregister] *)
Lemma deregister_cases (m : Machine) :
  (_service (self m) = None → deregister m = (Raise no_service_registered, m))
  ∧ (∀ service, _service (self m) = Some service →
       ∃ m1, stop_heartbeat m = (Ok tt, m1)
         ∧ _service (self m1) = Some service
         ∧ _routes (self m1) = _routes (self m)
         ∧ (remove_service send (self m1) (Service.id service) (io m1)).2
           = exchanged send (removal_request (self m) (Service.id service)) (io m1)
         ∧ (∀ s', remove_service send (self m1) (Service.id service) (io m1)
                   = (Ok tt, s') →
              deregister m
              = (Ok tt,
                 mkMachine (set_routes [] (set_service None (self m1))) (heap m) s'))
         ∧ (∀ e s', remove_service send (self m1) (Service.id service) (io m1)
                     = (Raise e, s') →
              deregister m = (Raise e, mkMachine (self m1) (heap m) s'))).
Proof.
  split.
  - intros Hs. unfold deregister. by rewrite Hs.
  - intros service Hs.
    destruct (stop_heartbeat_frame m) as (m1 & Hstop & Hs1 & Hr1 & Hauth & _ & Hheap).
    exists m1. rewrite Hs1, Hs. repeat split; try done.
    + rewrite remove_service_io. unfold removal_request. by rewrite Hauth.
    + intros s' Hrm. unfold deregister, py_bind, get_self, call, modify_self.
      rewrite Hs, Hstop, Hs1, Hs, Hrm. simpl. by rewrite Hheap.
    + intros e s' Hrm. unfold deregister, py_bind, get_self, call, modify_self.
      rewrite Hs, Hstop, Hs1, Hs, Hrm. simpl. by rewrite Hheap.
Qed.

(** C5. [deregister] raises the session error, and does nothing else,
    when no service is registered.  Otherwise it stops the heartbeat,
    which leaves the registration as it is, then asks the registry to
    remove the current service's id: if that call returns, the current
    service becomes absent and the route list empty; if it raises, the
    exception reaches the caller with the service and the routes as they
    were. *)
Theorem deregister_clears_after_removal (m : Machine) :
  (_service (self m) = None → deregister m = (Raise no_service_registered, m))
  ∧ (∀ service, _service (self m) = Some service →
       ∃ m1, stop_heartbeat m = (Ok tt, m1)
         ∧ _service (self m1) = Some service
         ∧ _routes (self m1) = _routes (self m)
         ∧ (remove_service send (self m1) (Service.id service) (io m1)).2
           = exchanged send (removal_request (self m) (Service.id service)) (io m1)
         ∧ (∀ s', remove_service send (self m1) (Service.id service) (io m1)
                   = (Ok tt, s') →
              ∃ m', deregister m = (Ok tt, m')
                ∧ _service (self m') = None ∧ _routes (self m') = []
                ∧ io m' = s')
         ∧ (∀ e s', remove_service send (self m1) (Service.id service) (io m1)
                     = (Raise e, s') →
              ∃ m', deregister m = (Raise e, m')
                ∧ _service (self m') = Some service
                ∧ _routes (self m') = _routes (self m)
                ∧ heap m' = heap m ∧ io m' = s')).
Proof.
  destruct (deregister_cases m) as [Hnone Hsome]. split; [done|].
  intros service Hs.
  destruct (Hsome service Hs) as (m1 & Hstop & Hs1 & Hr1 & Hio & Hok & Hfail).
  exists m1. repeat split; try done.
  - intros s' Hrm. eexists. split; [by apply Hok|done].
  - intros e s' Hrm. eexists. split; [by apply Hfail|done].
Qed.

(** ** The registration loop *)

Local Abbreviation register_route := (register_route send Route_model_validate).
Local Abbreviation register_service := (register_service send Service_model_validate).
Local Abbreviation register_each := (register_each send Route_model_validate).
Local Abbreviation register := (register send Service_model_validate Route_model_validate).
Local Abbreviation routes_accepted := (routes_accepted send Route_model_validate).

Lemma set_service_name_idemp name (r : Route.t) :
  Route.set_service_name name (Route.set_service_name name r)
  = Route.set_service_name name r.
Proof. reflexivity. Qed.

Lemma renamed_refl name (h : gmap loc Route.t) : renamed name h h.
Proof. intros l. by left. Qed.

Lemma renamed_lookup name (h0 h : gmap loc Route.t) (l : loc) (r : Route.t) :
  renamed name h0 h → h !! l = Some r →
  ∃ r0, h0 !! l = Some r0
    ∧ Route.set_service_name name r = Route.set_service_name name r0.
Proof.
  intros Hren Hl. destruct (Hren l) as [H|H]; rewrite Hl in H.
  - by exists r.
  - destruct (h0 !! l) as [r0|]; [|done]. exists r0. split; [done|].
    injection H as ->. apply set_service_name_idemp.
Qed.

Lemma renamed_lookup_inv name (h0 h : gmap loc Route.t) (l : loc) (r0 : Route.t) :
  renamed name h0 h → h0 !! l = Some r0 →
  ∃ r, h !! l = Some r
    ∧ Route.set_service_name name r = Route.set_service_name name r0.
Proof.
  intros Hren Hl. destruct (Hren l) as [H|H]; rewrite Hl in H.
  - by exists r0.
  - by exists (Route.set_service_name name r0).
Qed.

Lemma renamed_assign name (h0 h : gmap loc Route.t) (l : loc) (r : Route.t) :
  renamed name h0 h → h !! l = Some r →
  renamed name h0 (<[l := Route.set_service_name name r]> h).
Proof.
  intros Hren Hl l'. destruct (decide (l = l')) as [<-|Hne].
  - rewrite lookup_insert_eq. right.
    destruct (renamed_lookup _ _ _ _ _ Hren Hl) as (r0 & -> & ->). done.
  - rewrite lookup_insert_ne by done. apply Hren.
Qed.

Lemma register_route_io c (r : Route.t) (s : IO) :
  (register_route c r s).2 = exchanged send (route_request c r) s.
Proof. unfold register_route. rewrite bind_pure_snd. apply request_io. Qed.

(** the transport only reads the credentials and the base URL of [self] *)
Lemma register_route_self c1 c2 (r : Route.t) (s : IO) :
  _auth c1 = _auth c2 → _base_url c1 = _base_url c2 →
  register_route c1 r s = register_route c2 r s.
Proof.
  intros Hauth Hurl. unfold register_route, _request, py_bind.
  by rewrite Hauth, Hurl.
Qed.

(** one turn of the loop *)
Lemma register_each_cons svc (route : loc) (rest : list loc) (m : Machine) :
  register_each svc (route :: rest) m
  = match heap m !! route with
    | None => (Raise (AttributeError "service_name"), m)
    | Some r =>
        let r' := Route.set_service_name (Service.name svc) r in
        match register_route (self m) r' (io m) with
        | (Ok registered, s1) =>
            register_each svc rest
              (mkMachine (set_routes (_routes (self m) ++ [registered])%list (self m))
                 (<[route := r']> (heap m)) s1)
        | (Raise e, s1) =>
            (Raise e, mkMachine (self m) (<[route := r']> (heap m)) s1)
        end
    end.
Proof.
  simpl. unfold py_bind, assign_service_name, call, modify_self.
  destruct (heap m !! route) as [r|]; simpl; [|done].
  by destruct (register_route (self m) _ (io m)) as [[registered|e] s1].
Qed.

Lemma set_routes_nil_r (c : RinconClient) :
  set_routes (_routes c ++ [])%list c = c.
Proof. destruct c. unfold set_routes; simpl. by rewrite app_nil_r. Qed.

(** Once the registry has accepted the first routes, the loop is where a
    run over the remaining ones from there would be. *)
Lemma register_each_accepted svc c h0 pre (s : IO) regs s' rest :
  routes_accepted c (Service.name svc) h0 pre s regs s' →
  ∀ m : Machine,
    io m = s → _auth (self m) = _auth c → _base_url (self m) = _base_url c →
    renamed (Service.name svc) h0 (heap m) →
    ∃ h1, renamed (Service.name svc) h0 h1
      ∧ register_each svc (pre ++ rest) m
        = register_each svc rest
            (mkMachine (set_routes (_routes (self m) ++ regs)%list (self m)) h1 s').
Proof.
  induction 1 as [s|route r pre s registered s1 regs s2 Hr Hreg _ IH];
    intros m Hio Hauth Hurl Hren.
  - exists (heap m). split; [done|]. rewrite set_routes_nil_r.
    destruct m; simpl in *. by subst.
  - destruct (renamed_lookup_inv _ _ _ _ _ Hren Hr) as (rj & Hl & Hsame).
    destruct (IH (mkMachine
                    (set_routes (_routes (self m) ++ [registered])%list (self m))
                    (<[route := Route.set_service_name (Service.name svc) rj]> (heap m))
                    s1))
      as (h1 & Hren1 & Heq); [done|done|done|by apply renamed_assign|].
    exists h1. split; [done|].
    change ((route :: pre) ++ rest)%list with (route :: (pre ++ rest))%list.
    rewrite register_each_cons, Hl. cbv zeta.
    rewrite (register_route_self _ c _ _ Hauth Hurl), Hsame, Hio, Hreg.
    rewrite <- Hsame, Heq. simpl. by rewrite <- app_assoc.
Qed.

(** A run of the loop that returns has had every route accepted. *)
Lemma register_each_ok svc h0 (routes : list loc) :
  ∀ m m' : Machine,
    renamed (Service.name svc) h0 (heap m) →
    register_each svc routes m = (Ok tt, m') →
    ∃ regs,
      routes_accepted (self m) (Service.name svc) h0 routes (io m) regs (io m')
      ∧ self m' = set_routes (_routes (self m) ++ regs)%list (self m)
      ∧ renamed (Service.name svc) h0 (heap m').
Proof.
  induction routes as [|route rest IH]; intros m m' Hren Hrun.
  - injection Hrun as <-. exists []. rewrite set_routes_nil_r.
    repeat split; [constructor | done].
  - rewrite register_each_cons in Hrun.
    destruct (heap m !! route) as [r|] eqn:Hl; [|done]. simpl in Hrun.
    destruct (register_route (self m) _ (io m)) as [[registered|e] s1] eqn:Hreg;
      [|done].
    destruct (renamed_lookup _ _ _ _ _ Hren Hl) as (r0 & Hr0 & Hsame).
    apply IH in Hrun as (regs & Hacc & Hself & Hren'); simpl in *;
      [|by apply renamed_assign].
    exists (registered :: regs). repeat split; [|by rewrite Hself, <- app_assoc|done].
    econstructor; [exact Hr0| by rewrite <- Hsame |].
    clear -Hacc. revert Hacc. generalize (io m').
    generalize regs s1. induction rest as [|l rest IHr]; intros regs' s s'' Hacc.
    + inversion Hacc; subst. constructor.
    + inversion Hacc; subst. econstructor; [done| |by apply IHr].
      by rewrite <- (register_route_self
                       (set_routes (_routes (self m) ++ [registered])%list (self m))).
Qed.
(** What a run of the loop sends, however it ends: nothing but
    registrations of the caller's routes under the service's name. *)
Lemma register_each_trace svc h0 auth (routes : list loc) :
  ∀ (m m' : Machine) res,
    _auth (self m) = auth →
    renamed (Service.name svc) h0 (heap m) →
    register_each svc routes m = (res, m') →
    ∃ new,
      trace (io m') = (trace (io m) ++ new)%list
      ∧ Forall (λ ev, ∃ l r out,
                  l ∈ routes ∧ h0 !! l = Some r
                  ∧ ev = EvRequest
                           (mkRequest "POST" "/rincon/routes" None
                              (Some (Route.model_dump
                                       (Route.set_service_name (Service.name svc) r)))
                              (Some auth)) out) new.
Proof.
  induction routes as [|route rest IH]; intros m m' res Hauth Hren Hrun.
  - injection Hrun as <- <-. exists []. by rewrite app_nil_r.
  - rewrite register_each_cons in Hrun.
    destruct (heap m !! route) as [r|] eqn:Hl.
    2: { injection Hrun as <- <-. exists []. by rewrite app_nil_r. }
    destruct (renamed_lookup _ _ _ _ _ Hren Hl) as (r0 & Hr0 & Hsame).
    cbv zeta in Hrun.
    pose proof (register_route_io (self m)
                  (Route.set_service_name (Service.name svc) r) (io m)) as Hio.
    destruct (register_route (self m) _ (io m)) as [[registered|e] s1];
      simpl in Hio; subst s1.
    + apply IH in Hrun as (new & Htr & Hall); simpl in *;
        [|done|by apply renamed_assign].
      eexists (_ :: new). split.
      * rewrite Htr, <- app_assoc. reflexivity.
      * constructor.
        -- exists route, r0, (send (route_request (self m)
                                 (Route.set_service_name (Service.name svc) r))
                                (world (io m))).1.
           split; [left|]. split; [done|].
           unfold route_request. by rewrite Hsame, Hauth.
        -- eapply Forall_impl; [exact Hall|].
           intros ev (l & r1 & out & Hin & Hr1 & ->).
           exists l, r1, out. split; [by right|done].
    + injection Hrun as <- <-. simpl. eexists [_]. split; [reflexivity|].
      constructor; [|constructor].
      exists route, r0, (send (route_request (self m)
                                 (Route.set_service_name (Service.name svc) r))
                           (world (io m))).1.
      split; [left|]. split; [done|].
      unfold route_request. by rewrite Hsame, Hauth.
Qed.

(** What accepted routes leave in the trace: one exchange per route, in
    order. *)
Lemma routes_accepted_trace c name h0 (routes : list loc) (s : IO) regs s' :
  routes_accepted c name h0 routes s regs s' →
  length regs = length routes
  ∧ ∃ new,
      trace s' = (trace s ++ new)%list
      ∧ Forall2 (λ l ev, ∃ r out,
                   h0 !! l = Some r
                   ∧ ev = EvRequest
                            (route_request c (Route.set_service_name name r)) out)
          routes new.
Proof.
  induction 1 as [s|route r rest s registered s1 regs s2 Hr Hreg _ [Hlen IH]].
  - split; [done|]. exists []. by rewrite app_nil_r.
  - split; [simpl; by rewrite Hlen|].
    destruct IH as (new & Htr & Hall).
    pose proof (register_route_io c (Route.set_service_name name r) s) as Hio.
    rewrite Hreg in Hio; simpl in Hio; subst s1.
    eexists (_ :: new). split.
    + rewrite Htr. simpl. rewrite <- app_assoc. reflexivity.
    + constructor; [|done]. by eexists _, _.
Qed.

(** Accepted routes are [Route] objects of the store. *)
Lemma routes_accepted_live c name h0 (routes : list loc) (s : IO) regs s' :
  routes_accepted c name h0 routes s regs s' →
  ∀ l, l ∈ routes → is_Some (h0 !! l).
Proof.
  induction 1 as [s|route r rest s registered s1 regs s2 Hr _ _ IH]; intros l Hin.
  - by apply elem_of_nil in Hin.
  - apply elem_of_cons in Hin as [->|Hin]; [by eexists|by apply IH].
Qed.

(** The store after a run of the loop that returns. *)
Lemma register_each_heap svc (routes : list loc) :
  ∀ m m' : Machine,
    register_each svc routes m = (Ok tt, m') →
    ∀ l, heap m' !! l
         = if decide (l ∈ routes)
           then Route.set_service_name (Service.name svc) <$> heap m !! l
           else heap m !! l.
Proof.
  induction routes as [|route rest IH]; intros m m' Hrun l.
  - injection Hrun as <-. case_decide as Hin; [by apply elem_of_nil in Hin|done].
  - rewrite register_each_cons in Hrun.
    destruct (heap m !! route) as [r|] eqn:Hl; [|done]. cbv zeta in Hrun.
    destruct (register_route (self m) _ (io m)) as [[registered|e] s1]; [|done].
    rewrite (IH _ _ Hrun l). simpl.
    destruct (decide (l = route)) as [->|Hne].
    + rewrite lookup_insert_eq, Hl.
      rewrite (decide_True (P := route ∈ route :: rest)) by apply list_elem_of_here.
      by case_decide.
    + rewrite lookup_insert_ne by done.
      destruct (decide (l ∈ rest)) as [Hin|Hnin].
      * by rewrite (decide_True (P := l ∈ route :: rest))
          by by apply list_elem_of_further.
      * rewrite (decide_False (P := l ∈ route :: rest)); [done|].
        by intros [?|?]%elem_of_cons.
Qed.

(** [register], once the service itself is registered. *)
Lemma register_after_service (m : Machine) service routes svc (s1 : IO) :
  register_service (self m) service (io m) = (Ok svc, s1) →
  register service routes m
  = match register_each svc (default [] routes)
            (mkMachine (set_routes [] (set_service (Some svc) (self m))) (heap m) s1)
    with
    | (Ok _, m') => (Ok svc, m')
    | (Raise e, m') => (Raise e, m')
    end.
Proof.
  intros Hsvc. unfold register, py_bind, call, modify_self, py_ret.
  rewrite Hsvc. simpl.
  by destruct (register_each svc (default [] routes) _) as [[[]|e] m'].
Qed.

Lemma register_service_failed (m : Machine) service routes e (s1 : IO) :
  register_service (self m) service (io m) = (Raise e, s1) →
  register service routes m = (Raise e, mkMachine (self m) (heap m) s1).
Proof.
  intros Hsvc. unfold register, py_bind, call. by rewrite Hsvc.
Qed.

(** A [register] that returns: the service was registered, the loop ran
    to its end. *)
Lemma register_ok_inv (m m' : Machine) service routes svc :
  register service routes m = (Ok svc, m') →
  ∃ s1,
    register_service (self m) service (io m) = (Ok svc, s1)
    ∧ register_each svc (default [] routes)
        (mkMachine (set_routes [] (set_service (Some svc) (self m))) (heap m) s1)
      = (Ok tt, m').
Proof.
  intros Hrun.
  destruct (register_service (self m) service (io m)) as [[svc'|e] s1] eqn:Hsvc.
  - rewrite (register_after_service _ _ _ _ _ Hsvc) in Hrun.
    destruct (register_each svc' _ _) as [[[]|e] m''] eqn:Hloop; [|done].
    injection Hrun as -> ->. by exists s1.
  - by rewrite (register_service_failed _ _ _ _ _ Hsvc) in Hrun.
Qed.

(** ** Registration *)

Lemma model_dump_service_name name (r : Route.t) :
  Route.model_dump (Route.set_service_name name r)
  = JObj [("route", JStr (Route.route r)); ("method", JStr (Route.method r));
          ("service_name", JStr name)].
Proof. reflexivity. Qed.

(** C3 (as amended).  Once the service is registered, whatever [register]
    then sends is the registration of one of the caller's routes with
    [service_name] set to the registered service's name, whether the
    caller left that field blank or not; and when [register] returns, the
    routes were submitted so one by one, in order. *)
Theorem register_submits_registered_name (m m' : Machine) service routes svc
    (s1 : IO) res :
  register_service (self m) service (io m) = (Ok svc, s1) →
  register service routes m = (res, m') →
  ∃ new,
    trace (io m') = (trace s1 ++ new)%list
    ∧ Forall (λ ev, ∃ l r out,
                l ∈ default [] routes ∧ heap m !! l = Some r
                ∧ ev = EvRequest
                         (route_request (self m)
                            (Route.set_service_name (Service.name svc) r)) out) new
    ∧ (res = Ok svc →
       Forall2 (λ l ev, ∃ r out,
                  heap m !! l = Some r
                  ∧ ev = EvRequest
                           (route_request (self m)
                              (Route.set_service_name (Service.name svc) r)) out)
         (default [] routes) new).
Proof.
  intros Hsvc Hrun. rewrite (register_after_service _ _ _ _ _ Hsvc) in Hrun.
  destruct (register_each svc _ _) as [res' m''] eqn:Hloop.
  pose proof Hloop as Hsent.
  apply (register_each_trace svc (heap m) (_auth (self m))) in Hsent
    as (new & Htr & Hall); [|done|apply renamed_refl].
  assert (m'' = m') as -> by (by destruct res'; injection Hrun).
  exists new. split; [done|]. split; [done|].
  intros ->. destruct res' as [[]|e]; [|done].
  apply (register_each_ok svc (heap m)) in Hloop as (regs & Hacc & _);
    [|apply renamed_refl].
  apply routes_accepted_trace in Hacc as (_ & new' & Htr' & Hall').
  simpl in *. rewrite Htr in Htr'. by apply app_inv_head in Htr' as ->.
Qed.

(** C4. When the service is registered, the registry accepts the first
    k-1 routes and the k-th registration raises, [register] raises that
    exception right there: the session's service is the registered one,
    its route list holds the k-1 routes the registry answered with, in
    submission order, and nothing is sent after the failed request. *)
Theorem register_partial_failure (m : Machine) service (pre : list loc)
    (route : loc) (post : list loc) svc (s1 : IO) regs s2 r e s3 :
  register_service (self m) service (io m) = (Ok svc, s1) →
  routes_accepted (self m) (Service.name svc) (heap m) pre s1 regs s2 →
  heap m !! route = Some r →
  register_route (self m) (Route.set_service_name (Service.name svc) r) s2
  = (Raise e, s3) →
  ∃ m',
    register service (Some (pre ++ route :: post)%list) m = (Raise e, m')
    ∧ _service (self m') = Some svc
    ∧ _routes (self m') = regs
    ∧ length regs = length pre
    ∧ io m' = s3.
Proof.
  intros Hsvc Hacc Hr Hfail.
  rewrite (register_after_service _ _ _ _ _ Hsvc). simpl default.
  destruct (register_each_accepted svc (self m) (heap m) pre s1 regs s2
              (route :: post) Hacc
              (mkMachine (set_routes [] (set_service (Some svc) (self m))) (heap m) s1))
    as (h1 & Hren1 & ->); [done|done|done|apply renamed_refl|].
  destruct (renamed_lookup_inv _ _ _ _ _ Hren1 Hr) as (rj & Hl & Hsame).
  rewrite register_each_cons. simpl heap. rewrite Hl. cbv zeta.
  rewrite Hsame, (register_route_self _ (self m)) by done. simpl io.
  rewrite Hfail. eexists. split; [reflexivity|]. simpl.
  repeat split. by apply routes_accepted_trace in Hacc as [? _].
Qed.

(** C6. A [register] that returns, followed by a [deregister] that
    returns, leaves no current service and an empty route list; a second
    [deregister] then raises the no-service-registered session error and
    changes nothing; and a session that was in its initial state is in
    it again. *)
Theorem register_then_deregister (m m1 m2 : Machine) service routes svc :
  register service routes m = (Ok svc, m1) →
  deregister m1 = (Ok tt, m2) →
  _service (self m2) = None
  ∧ _routes (self m2) = []
  ∧ deregister m2 = (Raise no_service_registered, m2)
  ∧ (∀ url auth_user auth_password,
       self m = __init__ url auth_user auth_password → self m2 = self m).
Proof.
  intros Hreg Hdereg.
  apply register_ok_inv in Hreg as (s1 & _ & Hloop).
  apply (register_each_ok svc (heap m)) in Hloop as (regs & _ & Hself & _);
    [|apply renamed_refl].
  simpl in Hself.
  assert (_service (self m1) = Some svc) as Hs1 by by rewrite Hself.
  destruct (deregister_cases m1) as [_ Hsome].
  destruct (Hsome svc Hs1) as (m1' & Hstop & _ & _ & _ & Hok & Hfail).
  destruct (remove_service send (self m1') (Service.id svc) (io m1'))
    as [[[]|e] s'] eqn:Hrm.
  2: { rewrite (Hfail _ _ eq_refl) in Hdereg. done. }
  rewrite (Hok _ eq_refl) in Hdereg. injection Hdereg as <-. simpl.
  split; [done|]. split; [done|]. split.
  - by apply deregister_cases.
  - intros url auth_user auth_password Hinit.
    unfold stop_heartbeat in Hstop. rewrite Hself, Hinit in Hstop. simpl in Hstop.
    injection Hstop as <-. by rewrite Hself, Hinit.
Qed.

(** C10. When [register] returns, every [Route] object the caller
    supplied has had its [service_name] overwritten, in place, with the
    registered service's name, whatever it held before; its other fields
    and every other object of the caller are as they were. *)
Theorem register_overwrites_caller_routes (m m' : Machine) service routes svc :
  register service routes m = (Ok svc, m') →
  (∀ l, l ∈ default [] routes →
     ∃ r, heap m !! l = Some r
       ∧ heap m' !! l
         = Some (Route.mk (Route.id r) (Route.route r) (Route.method r)
                   (Service.name svc) (Route.created_at r)))
  ∧ (∀ l, l ∉ default [] routes → heap m' !! l = heap m !! l).
Proof.
  intros Hreg. apply register_ok_inv in Hreg as (s1 & _ & Hloop).
  pose proof (register_each_heap svc _ _ _ Hloop) as Hheap. simpl in Hheap.
  apply (register_each_ok svc (heap m)) in Hloop as (regs & Hacc & _);
    [|apply renamed_refl].
  split.
  - intros l Hin. rewrite Hheap, decide_True by done.
    destruct (routes_accepted_live _ _ _ _ _ _ _ Hacc l Hin) as [r Hr].
    exists r. by rewrite Hr.
  - intros l Hnin. by rewrite Hheap, decide_False.
Qed.

End ClientProperties.

(** * The properties at work on the scripted registry *)

Lemma register_partial_failure_witness :
  ∃ m',
    Mock.register Mock.svc (Some [0; 1])
      (Mock.start Mock.client
         [(0, Route.mk "" "/users" "GET,POST" "" None);
          (1, Route.mk "" "/users/all" "GET" "" None)]
         [Mock.ok_json Mock.SAMPLE_SERVICE; Mock.ok_json Mock.SAMPLE_ROUTE;
          Mock.error_json 500 "route overlaps with existing routes"])
    = (Raise (Rincon (RinconConflictError (JStr "route overlaps with existing routes"))),
       m')
    ∧ _service (self m') = Some Mock.registered_svc
    ∧ _routes (self m') = [Mock.registered_route].
Proof.
  edestruct (register_partial_failure Mock.send Mock.Service_model_validate
               Mock.Route_model_validate
               (Mock.start Mock.client
                  [(0, Route.mk "" "/users" "GET,POST" "" None);
                   (1, Route.mk "" "/users/all" "GET" "" None)]
                  [Mock.ok_json Mock.SAMPLE_SERVICE; Mock.ok_json Mock.SAMPLE_ROUTE;
                   Mock.error_json 500 "route overlaps with existing routes"])
               Mock.svc [0] 1 [])
    as (m' & Hrun & Hservice & Hroutes & _ & _).
  - vm_compute. reflexivity.
  - econstructor; [vm_compute; reflexivity | vm_compute; reflexivity | constructor].
  - vm_compute. reflexivity.
  - vm_compute. reflexivity.
  - exists m'. split; [exact Hrun|]. split; [exact Hservice|exact Hroutes].
Defined.

(** C3 as first stated fails: a route the caller submits under the
    non-blank service name "billing" reaches the registry under the
    registered service's name, "service_a". *)
Lemma register_replaces_nonblank_service_name :
  ∃ m',
    Mock.register Mock.svc (Some [0])
      (Mock.start Mock.client
         [(0, Route.mk "" "/users" "GET,POST" "billing" None)]
         [Mock.ok_json Mock.SAMPLE_SERVICE; Mock.ok_json Mock.SAMPLE_ROUTE])
    = (Ok Mock.registered_svc, m')
    ∧ submitted_service_names (trace (io m')) = [Some (JStr "service_a")]
    ∧ submitted_service_names (trace (io m')) ≠ [Some (JStr "billing")].
Proof.
  eexists. split; [vm_compute; reflexivity|].
  split; [vm_compute; reflexivity|]. vm_compute. discriminate.
Qed.

Lemma register_submits_registered_name_witness :
  ∃ new,
    Forall2 (λ l ev, ∃ r out,
               ({[0 := Route.mk "" "/users" "GET,POST" "billing" None]}
                  : gmap loc Route.t) !! l = Some r
               ∧ ev = EvRequest
                        (route_request Mock.client
                           (Route.set_service_name "service_a" r)) out)
      [0] new.
Proof.
  edestruct (register_submits_registered_name Mock.send Mock.Service_model_validate
               Mock.Route_model_validate)
    with (m := Mock.start Mock.client
                 [(0, Route.mk "" "/users" "GET,POST" "billing" None)]
                 [Mock.ok_json Mock.SAMPLE_SERVICE; Mock.ok_json Mock.SAMPLE_ROUTE])
         (service := Mock.svc) (routes := Some [0])
    as (new & _ & _ & Hok).
  - vm_compute. reflexivity.
  - vm_compute. reflexivity.
  - exists new. apply Hok. reflexivity.
Defined.

Lemma deregister_clears_after_removal_witness :
  Mock.deregister (Mock.start Mock.client [] [])
  = (Raise no_service_registered, Mock.start Mock.client [] [])
  ∧ ∃ m',
      Mock.deregister
        (Mock.start
           (set_routes [Mock.registered_route]
              (set_service (Some Mock.registered_svc) Mock.client))
           [] [Mock.error_json 404 "No service with id 820522 found"])
      = (Raise (Rincon (RinconNotFoundError (JStr "No service with id 820522 found"))),
         m')
      ∧ _service (self m') = Some Mock.registered_svc
      ∧ _routes (self m') = [Mock.registered_route].
Proof.
  split.
  - apply (deregister_clears_after_removal Mock.send Mock.is_alive Mock.join).
    reflexivity.
  - destruct (proj2 (deregister_clears_after_removal Mock.send Mock.is_alive Mock.join
                       (Mock.start
                          (set_routes [Mock.registered_route]
                             (set_service (Some Mock.registered_svc) Mock.client))
                          [] [Mock.error_json 404 "No service with id 820522 found"]))
               Mock.registered_svc eq_refl)
      as (m1 & Hstop & _ & _ & _ & _ & Hfail).
    vm_compute in Hstop. injection Hstop as <-.
    edestruct Hfail as (m' & Hrun & Hservice & Hroutes & _); [vm_compute; reflexivity|].
    exists m'. split; [exact Hrun|]. split; [exact Hservice|exact Hroutes].
Defined.

Lemma register_then_deregister_witness :
  ∃ m1 m2,
    Mock.register Mock.svc
      (Some [0])
      (Mock.start Mock.client [(0, Route.mk "" "/users" "GET,POST" "" None)]
         [Mock.ok_json Mock.SAMPLE_SERVICE; Mock.ok_json Mock.SAMPLE_ROUTE;
          Mock.ok_json (JObj [("message", JStr "Service with id 820522 removed")])])
    = (Ok Mock.registered_svc, m1)
    ∧ Mock.deregister m1 = (Ok tt, m2)
    ∧ self m2 = Mock.client
    ∧ Mock.deregister m2 = (Raise no_service_registered, m2).
Proof.
  do 2 eexists. split; [vm_compute; reflexivity|]. split; [vm_compute; reflexivity|].
  edestruct (register_then_deregister Mock.send Mock.is_alive Mock.join
               Mock.Service_model_validate Mock.Route_model_validate)
    with (m := Mock.start Mock.client [(0, Route.mk "" "/users" "GET,POST" "" None)]
                 [Mock.ok_json Mock.SAMPLE_SERVICE; Mock.ok_json Mock.SAMPLE_ROUTE;
                  Mock.ok_json (JObj [("message", JStr "Service with id 820522 removed")])])
         (service := Mock.svc) (routes := Some [0]) (svc := Mock.registered_svc)
    as (_ & _ & Hagain & Hinit).
  - vm_compute. reflexivity.
  - vm_compute. reflexivity.
  - split; [|exact Hagain].
    exact (Hinit "http://localhost:10311" "admin" "admin" eq_refl).
Defined.

Lemma match_route_strips_one_separator_witness :
  trace (Mock.match_route Mock.client "/users/123" "GET"
           (mkIO (Mock.mk [Mock.ok_json Mock.SAMPLE_SERVICE] []) [])).2
  = [EvRequest
       (mkRequest "GET" "/rincon/match"
          (Some [("route", "users/123"); ("method", "GET")]) None None)
       (Mock.ok_json Mock.SAMPLE_SERVICE)]
  ∧ strip_leading_slash "//users" = "/users"
  ∧ strip_leading_slash "users/123" = "users/123".
Proof.
  split; [|split].
  - destruct (match_route_strips_one_separator Mock.send Mock.Service_model_validate
                Mock.client "/users/123" "GET"
                (mkIO (Mock.mk [Mock.ok_json Mock.SAMPLE_SERVICE] []) []))
      as (Hio & _).
    unfold Mock.match_route. rewrite Hio. reflexivity.
  - destruct (match_route_strips_one_separator Mock.send Mock.Service_model_validate
                Mock.client "//users" "GET"
                (mkIO (Mock.mk [] []) []))
      as (_ & Hone & _).
    apply Hone. reflexivity.
  - destruct (match_route_strips_one_separator Mock.send Mock.Service_model_validate
                Mock.client "users/123" "GET"
                (mkIO (Mock.mk [] []) []))
      as (_ & _ & Hnone & _).
    apply Hnone. intros rest. discriminate.
Defined.

Lemma get_route_empty_list_is_not_found_witness :
  (Mock.get_route Mock.client "/nowhere" (Some "GET") None
     (mkIO (Mock.mk [Mock.ok_json (JArr [])] []) [])).1
  = Raise (Rincon (RinconNotFoundError (JStr "No route /nowhere found")))
  ∧ (Mock.get_route Mock.client "/users" None None
       (mkIO (Mock.mk [Mock.ok_json (JArr [Mock.SAMPLE_ROUTE])] []) [])).1
    = Ok Mock.registered_route.
Proof.
  split.
  - edestruct (get_route_empty_list_is_not_found Mock.send Mock.Route_model_validate
                 Mock.client "/nowhere" (Some "GET") None
                 (mkIO (Mock.mk [Mock.ok_json (JArr [])] []) []))
      as (Hempty & _); [reflexivity|].
    apply Hempty; reflexivity.
  - edestruct (get_route_empty_list_is_not_found Mock.send Mock.Route_model_validate
                 Mock.client "/users" None None
                 (mkIO (Mock.mk [Mock.ok_json (JArr [Mock.SAMPLE_ROUTE])] []) []))
      as (_ & _ & Hfirst); [reflexivity|].
    eapply Hfirst; reflexivity.
Defined.

Lemma start_heartbeat_guards_witness :
  Mock.start_heartbeat 10%Z (Mock.start Mock.client [] [])
  = (Raise no_service_registered, Mock.start Mock.client [] [])
  ∧ ∃ m1,
      Mock.start_heartbeat 10%Z
        (Mock.start (set_service (Some Mock.registered_svc) Mock.client) [] [])
      = (Ok tt, m1)
      ∧ Mock.start_heartbeat 10%Z m1 = (Ok tt, m1)
      ∧ threads_started (trace (io m1)) = 1.
Proof.
  split.
  - apply (start_heartbeat_guards Mock.thread_start Mock.is_alive). reflexivity.
  - eexists. split; [vm_compute; reflexivity|].
    edestruct (start_heartbeat_guards Mock.thread_start Mock.is_alive 10%Z
                 (Mock.start (set_service (Some Mock.registered_svc) Mock.client) [] []))
      as (_ & _ & Htwice).
    eapply (Htwice Mock.registered_svc _ 10%Z);
      [reflexivity | reflexivity | vm_compute; reflexivity | reflexivity].
Defined.

Lemma register_overwrites_caller_routes_witness :
  ∃ m',
    Mock.register Mock.svc (Some [0])
      (Mock.start Mock.client
         [(0, Route.mk "" "/users" "GET,POST" "billing" None);
          (1, Route.mk "" "/orders" "GET" "billing" None)]
         [Mock.ok_json Mock.SAMPLE_SERVICE; Mock.ok_json Mock.SAMPLE_ROUTE])
    = (Ok Mock.registered_svc, m')
    ∧ heap m' !! 0 = Some (Route.mk "" "/users" "GET,POST" "service_a" None)
    ∧ heap m' !! 1 = Some (Route.mk "" "/orders" "GET" "billing" None).
Proof.
  eexists. split; [vm_compute; reflexivity|].
  edestruct (register_overwrites_caller_routes Mock.send Mock.Service_model_validate
               Mock.Route_model_validate)
    with (m := Mock.start Mock.client
                 [(0, Route.mk "" "/users" "GET,POST" "billing" None);
                  (1, Route.mk "" "/orders" "GET" "billing" None)]
                 [Mock.ok_json Mock.SAMPLE_SERVICE; Mock.ok_json Mock.SAMPLE_ROUTE])
         (service := Mock.svc) (routes := Some [0]) (svc := Mock.registered_svc)
    as (Hin & Hout); [vm_compute; reflexivity|].
  split.
  - destruct (Hin 0) as (r & Hr & Hr'); [apply list_elem_of_here|].
    vm_compute in Hr. injection Hr as <-. exact Hr'.
  - refine (eq_trans (Hout 1 _) _); [|reflexivity].
    apply (bool_decide_unpack _). vm_compute. exact I.
Defined.


(** * Further properties: transport, reads, heartbeat, registration *)

(** ** The base URL *)

Lemma append_empty_l (s : string) : "" +:+ s = s.
Proof. reflexivity. Qed.

Lemma append_cons (c : ascii) (s t : string) :
  String c s +:+ t = String c (s +:+ t).
Proof. reflexivity. Qed.

Lemma rstrip_slash_fixed (t : string) :
  (∀ p, t ≠ p +:+ "/") → rstrip_slash t = t.
Proof.
  induction t as [|c rest IH]; [done|]. intros Hend. simpl.
  rewrite IH.
  - destruct rest as [|c' rest']; [|done].
    case_decide as Hc; [|done]. subst c. by destruct (Hend "").
  - intros p ->. by destruct (Hend (String c p)).
Qed.

(** X1. The base URL a new client keeps is the given URL less all its
    trailing slashes: the URL is the base URL followed by slashes only, the
    base URL ends in none, and stripping again changes nothing. *)
Theorem init_base_url_has_no_trailing_slash (url auth_user auth_password : string) :
  (∃ k, url = _base_url (__init__ url auth_user auth_password) +:+ slashes k)
  ∧ (∀ p, _base_url (__init__ url auth_user auth_password) ≠ p +:+ "/")
  ∧ rstrip_slash (_base_url (__init__ url auth_user auth_password))
    = _base_url (__init__ url auth_user auth_password).
Proof.
  simpl.
  assert ((∃ k, url = rstrip_slash url +:+ slashes k)
          ∧ ∀ p, rstrip_slash url ≠ p +:+ "/") as [Hk Hend].
  { induction url as [|c rest [[k Hk] Hend]].
    - split; [by exists 0|]. by intros [|a p].
    - simpl. destruct (rstrip_slash rest) as [|c' kept] eqn:Hrest.
      + case_decide as Hc.
        * subst c. split; [exists (S k); simpl; by rewrite Hk at 1|]. by intros [|a p].
        * split; [exists k; simpl; by rewrite Hk at 1|].
          intros [|a p]; rewrite ?append_empty_l, ?append_cons; [congruence|].
          intros [= _ Hp]. by destruct p.
      + split; [exists k; simpl; by rewrite Hk at 1|].
        intros [|a p]; rewrite ?append_empty_l, ?append_cons; [done|].
        intros [= _ Hp]. by destruct (Hend p). }
  split; [done|]. split; [done|]. by apply rstrip_slash_fixed.
Qed.

(** ** What a non-200 status raises *)

Lemma raise_for_status_raises (resp : Response) :
  resp_status_code resp ≠ 200%Z →
  ∃ exc,
    _raise_for_status resp = Raise (Rincon exc)
    ∧ status_code exc = Some (resp_status_code resp)
    ∧ message exc = error_message resp
    ∧ (exc_class exc = cls_RinconError
       ↔ resp_status_code resp ∉ [400; 401; 404; 500]%Z).
Proof.
  intros Hne.
  destruct (decide (resp_status_code resp ∈ [400; 401; 404; 500]%Z)) as [Hin|Hnin].
  - unfold _raise_for_status. rewrite decide_False by done.
    repeat (apply elem_of_cons in Hin as [Hin|Hin]);
      [..|by apply elem_of_nil in Hin]; rewrite Hin;
      eexists; (split; [reflexivity|]); simpl;
      (split; [done|]); (split; [done|]); (split; [done|]);
      intros Hout; exfalso; apply Hout;
      repeat (first [apply list_elem_of_here | apply list_elem_of_further]).
  - rewrite raise_for_status_other.
    + eexists. split; [reflexivity|]. by simpl.
    + by intros [?|?]%elem_of_cons.
Qed.

(** X2. Whatever non-200 status the server answers, the exception raised
    is a [RinconError] whose [status_code] is that very status and whose
    message is the server's; it is of the generic class exactly when the
    status is none of 400, 401, 404 and 500. *)
Theorem raised_status_code_is_response_status (resp : Response) :
  resp_status_code resp ≠ 200%Z →
  ∃ exc,
    _raise_for_status resp = Raise (Rincon exc)
    ∧ status_code exc = Some (resp_status_code resp)
    ∧ message exc = error_message resp
    ∧ (exc_class exc = cls_RinconError
       ↔ resp_status_code resp ∉ [400; 401; 404; 500]%Z).
Proof. apply raise_for_status_raises. Qed.

Lemma raised_status_code_is_response_status_witness :
  ∃ exc,
    _raise_for_status (mkResponse 409 "conflict" None) = Raise (Rincon exc)
    ∧ status_code exc = Some 409%Z
    ∧ message exc = JStr "conflict".
Proof.
  destruct (raised_status_code_is_response_status (mkResponse 409 "conflict" None))
    as (exc & Hraise & Hcode & Hmsg & _); [discriminate|].
  exists exc. split; [exact Hraise|]. split; [exact Hcode|exact Hmsg].
Defined.

Section MoreProperties.
Context {World Seconds : Type}.
Variable send : Request → World → Outcome * World.
Variable thread_start : Seconds → World → thread * World.
Variable is_alive : thread → World → bool.
Variable join : thread → World → World.
Variable http_close : World → World.
Variable Service_model_validate : JSON → option Service.t.
Variable Route_model_validate : JSON → option Route.t.
Variable Ping_model_validate : JSON → option Ping.t.
Variable str_items : string → list string.

Local Abbreviation IO := (@IO World).
Local Abbreviation Machine := (@Machine World).
Local Abbreviation _request := (_request send).
Local Abbreviation register_service := (register_service send Service_model_validate).
Local Abbreviation register_route := (register_route send Route_model_validate).

(** ** The transport adapter *)

(** the request [_request] builds *)
Local Abbreviation built method path json params auth c :=
  (mkRequest method path params json (if auth then Some (_auth c) else None)).

Lemma request_run c method path json params (auth : bool) (s : IO) :
  _request c method path json params auth s
  = (match (send (built method path json params auth c) (world s)).1 with
     | Responded resp =>
         match _raise_for_status resp with Ok _ => Ok resp | Raise e => Raise e end
     | ConnectError =>
         Raise (Rincon (RinconConnectionError
                  (JStr ("Failed to connect to Rincon at " +:+ _base_url c))))
     | TimeoutException =>
         Raise (Rincon (RinconConnectionError
                  (JStr ("Request to Rincon timed out: " +:+ path))))
     | OtherHttpxError what => Raise (HttpxError what)
     end,
     exchanged send (built method path json params auth c) s).
Proof.
  unfold _request, exchanged. destruct (send _ _) as [out w]; simpl.
  destruct out as [resp| | |]; try done. by destruct (_raise_for_status resp).
Qed.

(** X3. [_request] returns a response exactly when the transport answered
    with status 200, and then returns that response; in every case it has
    made one exchange, with the credentials exactly when asked to. *)
Theorem request_returns_exactly_on_200 c method path json params (auth : bool)
    (s : IO) (resp : Response) :
  ((_request c method path json params auth s).1 = Ok resp
   ↔ (send (built method path json params auth c) (world s)).1 = Responded resp
     ∧ resp_status_code resp = 200%Z)
  ∧ trace (_request c method path json params auth s).2
    = (trace s ++ [EvRequest (built method path json params auth c)
                     (send (built method path json params auth c) (world s)).1])%list.
Proof.
  rewrite request_run. simpl. split; [|done].
  destruct (send _ _).1 as [r| | |]; [|by split; [|intros []]..].
  destruct (decide (resp_status_code r = 200%Z)) as [H200|Hne].
  - unfold _raise_for_status. rewrite decide_True by done.
    split; [by intros [= ->]|by intros [[= ->] _]].
  - destruct (raise_for_status_raises r Hne) as (exc & -> & _).
    split; [done|]. intros [[= ->] ?]. done.
Qed.

(** X4. The [RinconError]s of [_request]: after a response, the error
    carries the response's (non-200) status and the server's message; after
    a refused connection or a timeout it is the connection error, with no
    status code, naming the base URL or the path; any other failure of the
    transport is not turned into a [RinconError]. *)
Theorem request_rincon_errors c method path json params (auth : bool) (s : IO) exc :
  (_request c method path json params auth s).1 = Raise (Rincon exc) →
  match (send (built method path json params auth c) (world s)).1 with
  | Responded resp =>
      resp_status_code resp ≠ 200%Z
      ∧ status_code exc = Some (resp_status_code resp)
      ∧ message exc = error_message resp
  | ConnectError =>
      exc = mkRinconExc cls_RinconConnectionError
              (JStr ("Failed to connect to Rincon at " +:+ _base_url c)) None
  | TimeoutException =>
      exc = mkRinconExc cls_RinconConnectionError
              (JStr ("Request to Rincon timed out: " +:+ path)) None
  | OtherHttpxError _ => False
  end.
Proof.
  rewrite request_run. simpl.
  destruct (send _ _).1 as [r| | |]; try by intros [= <-].
  destruct (decide (resp_status_code r = 200%Z)) as [H200|Hne].
  - unfold _raise_for_status. by rewrite decide_True by done.
  - destruct (raise_for_status_raises r Hne) as (exc' & -> & Hcode & Hmsg & _).
    by intros [= <-].
Qed.

(** ** Decoding the answer *)

Lemma bind_pure_run {S A B} (c : Py S A) (f : A → Result B) (s : S) :
  py_bind (λ a s', (f a, s')) c s
  = (match (c s).1 with Ok a => f a | Raise e => Raise e end, (c s).2).
Proof. unfold py_bind. by destruct (c s) as [[a|e] s']. Qed.

Lemma validate_each_ok {A} model (validate : JSON → option A) items l :
  validate_each model validate items = Ok l
  ↔ Forall2 (λ j a, validate j = Some a) items l.
Proof.
  revert l. induction items as [|x rest IH]; intros l; simpl.
  - split; [intros [= <-]; constructor|by intros ->%Forall2_nil_inv_l].
  - unfold validated. destruct (validate x) as [a|] eqn:Hx.
    + destruct (validate_each model validate rest) as [l'|e].
      * split.
        -- intros [= <-]. constructor; [done|by apply IH].
        -- intros (a' & l'' & Ha & Hl & ->)%Forall2_cons_inv_l.
           apply IH in Hl as [= ->]. congruence.
      * split; [done|].
        intros (a' & l'' & Ha & Hl & ->)%Forall2_cons_inv_l. by apply IH in Hl.
    + split; [done|].
      intros (a' & l'' & Ha & Hl & ->)%Forall2_cons_inv_l. congruence.
Qed.

Lemma validate_each_raises {A} model (validate : JSON → option A) items e :
  validate_each model validate items = Raise e → e = ValidationError model.
Proof.
  induction items as [|x rest IH]; simpl; [done|].
  unfold validated. destruct (validate x) as [a|]; [|by intros [= <-]].
  destruct (validate_each model validate rest) as [l'|e']; [done|].
  intros [= <-]. by apply IH.
Qed.

(** X5. [register_service] returns a service exactly when the registry
    answered the POST with status 200 and a JSON body that validates, and
    it returns that validated service.  What it raises otherwise is a
    [RinconError], an uncaught transport error, or (on a 200 answer) the
    JSON decoder's or the validator's own error, which are not
    [RinconError]s. *)
Theorem register_service_returns_iff c (service : Service.t) (s : IO) :
  (∀ svc,
     (register_service c service s).1 = Ok svc
     ↔ ∃ resp data,
         (send (service_request c service) (world s)).1 = Responded resp
         ∧ resp_status_code resp = 200%Z
         ∧ resp_json resp = Some data
         ∧ Service_model_validate data = Some svc)
  ∧ (∀ e,
       (register_service c service s).1 = Raise e →
       (∃ exc, e = Rincon exc) ∨ (∃ what, e = HttpxError what)
       ∨ ((e = JSONDecodeError ∨ e = ValidationError "Service")
          ∧ ∃ resp, (send (service_request c service) (world s)).1 = Responded resp
                    ∧ resp_status_code resp = 200%Z)).
Proof.
  unfold register_service. rewrite bind_pure_run, request_run. simpl.
  fold (service_request c service).
  destruct (send (service_request c service) (world s)).1 as [r| | |];
    [|split; [by split; [|intros (?&?&?&_)]|intros e [= <-]; eauto]..].
  destruct (decide (resp_status_code r = 200%Z)) as [H200|Hne].
  - unfold _raise_for_status. rewrite decide_True by done.
    unfold decode, validated. split.
    + intros svc. split.
      * destruct (resp_json r) as [data|] eqn:Hdata; [|done].
        destruct (Service_model_validate data) as [a|] eqn:Ha; [|done].
        intros [= <-]. by exists r, data.
      * intros (resp & data & [= <-] & _ & -> & ->). done.
    + intros e He. right. right. split; [|by exists r].
      destruct (resp_json r) as [data|]; [|left; congruence].
      destruct (Service_model_validate data); [done|right; congruence].
  - destruct (raise_for_status_raises r Hne) as (exc & -> & _). split.
    + intros svc. split; [done|]. by intros (resp & data & [= <-] & ? & _).
    + intros e [= <-]. eauto.
Qed.

(** ** What each operation sends *)

Lemma get_listing_io {A} c path model (validate : JSON → option A) (s : IO) :
  (get_listing send str_items c path model validate s).2
  = exchanged send (read_request path None) s.
Proof.
  unfold get_listing. rewrite request_run. simpl.
  by destruct (match (send _ _).1 with Responded _ => _ | _ => _ end).
Qed.

(** X6. Every read operation makes exactly one exchange: a GET on its
    path, with its query parameters, without a body and without
    credentials, whatever the registry answers. *)
Theorem reads_send_no_credentials c (s : IO) :
  (ping send Ping_model_validate c s).2
  = exchanged send (read_request "/rincon/ping" None) s
  ∧ (get_all_services send Service_model_validate str_items c s).2
    = exchanged send (read_request "/rincon/services" None) s
  ∧ (∀ name,
       (get_services_by_name send Service_model_validate c name s).2
       = exchanged send (read_request ("/rincon/services/" +:+ name) None) s)
  ∧ (∀ service_id : Z,
       (get_service_by_id send Service_model_validate c service_id s).2
       = exchanged send
           (read_request ("/rincon/services/" +:+ pretty service_id) None) s)
  ∧ (get_all_routes send Route_model_validate str_items c s).2
    = exchanged send (read_request "/rincon/routes" None) s
  ∧ (∀ service_name,
       (get_routes_for_service send Route_model_validate str_items c service_name s).2
       = exchanged send
           (read_request ("/rincon/services/" +:+ service_name +:+ "/routes") None) s)
  ∧ (∀ route method service,
       (get_route send Route_model_validate c route method service s).2
       = exchanged send
           (read_request "/rincon/routes"
              (Some (get_route_params route method service))) s)
  ∧ (∀ route,
       (get_routes_by_path send Route_model_validate c route s).2
       = exchanged send (read_request "/rincon/routes" (Some [("route", route)])) s)
  ∧ (∀ route method,
       (match_route send Service_model_validate c route method s).2
       = exchanged send
           (read_request "/rincon/match"
              (Some [("route", strip_leading_slash route); ("method", method)])) s).
Proof.
  repeat split; intros;
    first [ apply get_listing_io
          | unfold ping, get_services_by_name, get_service_by_id, get_route,
              get_routes_by_path, match_route, py_bind;
            rewrite request_run; simpl;
            by repeat case_match ].
Qed.

(** X7. The write operations send the client's credentials, and what they
    submit leaves out the identity and the timestamps: two services that
    agree on name, version, endpoint and health check are registered by
    the same request with the same result, and so are two routes that agree
    on path, method and service name. *)
Theorem writes_send_credentials_and_no_identity c (s : IO) :
  (∀ service,
     (register_service c service s).2 = exchanged send (service_request c service) s
     ∧ req_auth (service_request c service) = Some (_auth c))
  ∧ (∀ route,
       (register_route c route s).2 = exchanged send (route_request c route) s
       ∧ req_auth (route_request c route) = Some (_auth c))
  ∧ (∀ service_id,
       (remove_service send c service_id s).2
       = exchanged send (removal_request c service_id) s
       ∧ req_auth (removal_request c service_id) = Some (_auth c))
  ∧ (∀ s1 s2 : Service.t,
       Service.name s1 = Service.name s2 →
       Service.version s1 = Service.version s2 →
       Service.endpoint s1 = Service.endpoint s2 →
       Service.health_check s1 = Service.health_check s2 →
       register_service c s1 s = register_service c s2 s)
  ∧ (∀ r1 r2 : Route.t,
       Route.route r1 = Route.route r2 →
       Route.method r1 = Route.method r2 →
       Route.service_name r1 = Route.service_name r2 →
       register_route c r1 s = register_route c r2 s).
Proof.
  split; [|split; [|split; [|split]]].
  - intros service. split; [|done].
    unfold register_service. by rewrite bind_pure_snd, request_io.
  - intros route. split; [|done].
    unfold register_route. by rewrite bind_pure_snd, request_io.
  - intros service_id. split; [|done].
    unfold remove_service, py_bind. rewrite request_run. simpl.
    by repeat case_match.
  - intros s1 s2 H1 H2 H3 H4. unfold register_service, Service.model_dump.
    by rewrite H1, H2, H3, H4.
  - intros r1 r2 H1 H2 H3. unfold register_route, Route.model_dump.
    by rewrite H1, H2, H3.
Qed.

(** X8. A single leading slash does not matter to [match_route]: a path
    that does not start with a slash is matched the same with one put in
    front. *)
Theorem match_route_leading_slash_optional c (path method : string) (s : IO) :
  (∀ rest, path ≠ String "/" rest) →
  match_route send Service_model_validate c (String "/" path) method s
  = match_route send Service_model_validate c path method s.
Proof.
  intros Hpath. unfold match_route.
  by rewrite strip_leading_slash_cons, strip_leading_slash_id.
Qed.

(** ** Lists of services and routes *)

Lemma request_ok c method path json params (auth : bool) (s : IO) resp w :
  send (built method path json params auth c) (world s) = (Responded resp, w) →
  resp_status_code resp = 200%Z →
  _request c method path json params auth s
  = (Ok resp, exchanged send (built method path json params auth c) s).
Proof.
  intros Hsend H200. rewrite request_run, Hsend. simpl.
  unfold _raise_for_status. by rewrite decide_True by done.
Qed.

Lemma validate_list_or_one_ok {A} model (validate : JSON → option A) data l :
  validate_list_or_one model validate data = Ok l
  ↔ match data with
    | JArr items => Forall2 (λ j a, validate j = Some a) items l
    | _ => ∃ a, validate data = Some a ∧ l = [a]
    end.
Proof.
  destruct data; simpl; try apply validate_each_ok;
    unfold validated; (destruct (validate _) as [a|];
      [split; [intros [= <-]; by exists a|by intros (a' & [= ->] & ->)]
      |split; [done|by intros (a' & ? & _)]]).
Qed.

(** X9. [get_services_by_name] takes either shape of a 200 answer: an
    array gives its elements validated in order, and it is all or nothing
    (an empty array gives the empty list, not an error); any other
    document is validated as one service and returned as a list of one.
    What it raises on a 200 answer is the decoder's or the validator's
    error. *)
Theorem get_services_by_name_normalises c (name : string) (s : IO) resp w :
  send (read_request ("/rincon/services/" +:+ name) None) (world s)
  = (Responded resp, w) →
  resp_status_code resp = 200%Z →
  (∀ items l,
     resp_json resp = Some (JArr items) →
     (get_services_by_name send Service_model_validate c name s).1 = Ok l
     ↔ Forall2 (λ j a, Service_model_validate j = Some a) items l)
  ∧ (∀ data l,
       resp_json resp = Some data → (∀ items, data ≠ JArr items) →
       (get_services_by_name send Service_model_validate c name s).1 = Ok l
       ↔ ∃ a, Service_model_validate data = Some a ∧ l = [a])
  ∧ (∀ e,
       (get_services_by_name send Service_model_validate c name s).1 = Raise e →
       e = JSONDecodeError ∨ e = ValidationError "Service").
Proof.
  intros Hsend H200. unfold get_services_by_name, py_bind.
  rewrite (request_ok _ _ _ _ _ false _ _ _ Hsend H200).
  split; [|split].
  - intros items l ->. simpl. apply validate_each_ok.
  - intros data l -> Hshape. simpl. rewrite validate_list_or_one_ok.
    destruct data as [| | | | |items|]; try done. by destruct (Hshape items).
  - intros e. destruct (resp_json resp) as [data|]; simpl; [|left; congruence].
    intros He. right. destruct data; simpl in He;
      try (unfold validated in He; destruct (Service_model_validate _); congruence).
    by apply validate_each_raises in He.
Qed.

(** X10. [get_route] with no method and no service asks what
    [get_routes_by_path] asks: where the latter returns a non-empty list,
    the former returns its first route; where the latter returns the empty
    list, the former raises the not-found error; the registry is left in
    the same state by both. *)
Theorem get_route_heads_get_routes_by_path c (route : string) (s : IO) :
  (∀ r rs s',
     get_routes_by_path send Route_model_validate c route s = (Ok (r :: rs), s') →
     get_route send Route_model_validate c route None None s = (Ok r, s'))
  ∧ (∀ s',
       get_routes_by_path send Route_model_validate c route s = (Ok [], s') →
       get_route send Route_model_validate c route None None s
       = (Raise (Rincon (RinconNotFoundError (JStr ("No route " +:+ route +:+ " found")))),
          s')).
Proof.
  unfold get_routes_by_path, get_route, py_bind.
  change (get_route_params route None None) with [("route", route)].
  destruct (_request c "GET" "/rincon/routes" None (Some [("route", route)]) false s)
    as [[resp|e] s1]; [|done].
  destruct (resp_json resp) as [data|]; [|done].
  split.
  - intros r rs s' [= Hl <-].
    apply validate_list_or_one_ok in Hl.
    destruct data as [| | | | |items|]; try (destruct Hl as (a & Ha & [= -> ->]);
      unfold validated; by rewrite Ha).
    destruct items as [|x items]; [by apply Forall2_nil_inv_l in Hl|].
    apply Forall2_cons_1 in Hl as [Hx _]. unfold validated. by rewrite Hx.
  - intros s' [= Hl <-].
    apply validate_list_or_one_ok in Hl.
    destruct data as [| | | | |items|]; try (by destruct Hl as (a & _ & [=])).
    by apply Forall2_nil_inv_r in Hl as ->.
Qed.

(** X11. [get_all_services] iterates over the 200 answer as it comes.  An
    array gives its elements validated in order, all or nothing.  A
    document that is not iterable (null, a boolean, a number) raises the
    [TypeError] of the [for], which is not a [RinconError].  A single
    service object is not wrapped as [get_services_by_name] wraps it: its
    keys are iterated, so an empty object gives the empty list and a
    non-empty one fails validation as soon as the validator rejects its
    first key. *)
Theorem get_all_services_iterates c (s : IO) resp w :
  send (read_request "/rincon/services" None) (world s) = (Responded resp, w) →
  resp_status_code resp = 200%Z →
  (∀ items l,
     resp_json resp = Some (JArr items) →
     (get_all_services send Service_model_validate str_items c s).1 = Listed l
     ↔ Forall2 (λ j a, Service_model_validate j = Some a) items l)
  ∧ (∀ data,
       resp_json resp = Some data →
       data = JNull ∨ (∃ b, data = JBool b) ∨ (∃ n, data = JInt n)
       ∨ (∃ x, data = JReal x) →
       (get_all_services send Service_model_validate str_items c s).1 = NotIterable)
  ∧ (resp_json resp = Some (JObj []) →
     (get_all_services send Service_model_validate str_items c s).1 = Listed [])
  ∧ (∀ k v members,
       resp_json resp = Some (JObj ((k, v) :: members)) →
       Service_model_validate (JStr k) = None →
       (get_all_services send Service_model_validate str_items c s).1
       = ListingRaised (ValidationError "Service")).
Proof.
  intros Hsend H200. unfold get_all_services, get_listing.
  rewrite (request_ok _ _ _ _ _ false _ _ _ Hsend H200). unfold listing.
  split; [|split; [|split]].
  - intros items l ->. simpl. rewrite <- (validate_each_ok "Service").
    destruct (validate_each _ _ items); split; congruence.
  - intros data -> [->|[[b ->]|[[n ->]|[x ->]]]]; done.
  - by intros ->.
  - intros k v members -> Hk. simpl. unfold validated. by rewrite Hk.
Qed.

(** ** Heartbeat *)

Local Abbreviation start_heartbeat := (start_heartbeat thread_start is_alive).
Local Abbreviation stop_heartbeat := (@stop_heartbeat World is_alive join).
Local Abbreviation heartbeat_running := (@heartbeat_running World is_alive).
Local Abbreviation heartbeat_turn := (heartbeat_turn send Service_model_validate).
Local Abbreviation heartbeat_turns := (heartbeat_turns send Service_model_validate).
Local Abbreviation deregister := (deregister send is_alive join).
Local Abbreviation close := (close is_alive join http_close).
Local Abbreviation register_each := (register_each send Route_model_validate).
Local Abbreviation register := (register send Service_model_validate Route_model_validate).
Local Abbreviation routes_accepted := (routes_accepted send Route_model_validate).

Lemma stop_heartbeat_run (m : Machine) :
  stop_heartbeat m
  = (Ok tt,
     if heartbeat_running m then
       match _heartbeat_thread (self m) with
       | Some t =>
           mkMachine
             (set_heartbeat_thread None (set_heartbeat_stop_event true (self m)))
             (heap m)
             (mkIO (join t (world (io m))) (trace (io m) ++ [EvJoin t])%list)
       | None => m
       end
     else m).
Proof.
  unfold stop_heartbeat, heartbeat_running.
  destruct (_heartbeat_thread (self m)) as [t|]; [|done].
  by destruct (is_alive t (world (io m))).
Qed.

(** X12. [stop_heartbeat] always returns, and stopping twice is stopping
    once: after it, a second call changes nothing, whether the first found
    a heartbeat to stop or not. *)
Theorem stop_heartbeat_idempotent (m : Machine) :
  (stop_heartbeat m).1 = Ok tt
  ∧ stop_heartbeat (stop_heartbeat m).2 = (Ok tt, (stop_heartbeat m).2).
Proof.
  rewrite (stop_heartbeat_run m). simpl. split; [done|].
  destruct (heartbeat_running m) eqn:Hrun.
  - destruct (_heartbeat_thread (self m)) as [t|] eqn:Ht.
    + by rewrite stop_heartbeat_run.
    + rewrite stop_heartbeat_run. by rewrite Hrun, Ht.
  - rewrite stop_heartbeat_run. by rewrite Hrun.
Qed.

(** X13. A running heartbeat that is stopped can be started again: the
    stop sets the stop event, joins the thread and forgets it; the next
    [start_heartbeat] clears the event and starts a new thread, without
    looking at whether the joined one has ended. *)
Theorem heartbeat_restarts_after_stop (interval : Seconds) (m m1 m2 : Machine)
    service :
  _service (self m) = Some service →
  heartbeat_running m = true →
  stop_heartbeat m = (Ok tt, m1) →
  start_heartbeat interval m1 = (Ok tt, m2) →
  ∃ t t',
    _heartbeat_thread (self m) = Some t
    ∧ _heartbeat_thread (self m1) = None
    ∧ _heartbeat_stop_event (self m1) = true
    ∧ _heartbeat_thread (self m2) = Some t'
    ∧ _heartbeat_stop_event (self m2) = false
    ∧ trace (io m2) = (trace (io m) ++ [EvJoin t; EvThreadStart t'])%list.
Proof.
  intros Hs Hrun Hstop Hstart.
  rewrite stop_heartbeat_run, Hrun in Hstop.
  destruct (_heartbeat_thread (self m)) as [t|] eqn:Ht.
  2: { unfold heartbeat_running in Hrun. by rewrite Ht in Hrun. }
  injection Hstop as <-.
  unfold start_heartbeat, heartbeat_running in Hstart. simpl in Hstart.
  rewrite Hs in Hstart.
  destruct (thread_start interval _) as [t' w].
  injection Hstart as <-. exists t, t'. simpl.
  repeat split. by rewrite <- app_assoc.
Qed.

Lemma requests_app (tr1 tr2 : list Event) :
  requests (tr1 ++ tr2) = (requests tr1 ++ requests tr2)%list.
Proof. apply omap_app. Qed.

(** X14. The heartbeat loop outlives the registry's failures but not a
    missing registration.  With a current service, [n] turns of the loop
    never raise, whatever the registry answers: they send [n] times the
    same registration of that service and leave the session as it is (the
    answers are not stored).  With no current service, a turn sends
    nothing and raises from its own error handler. *)
Theorem heartbeat_survives_registry_failures (n : nat) (m : Machine) :
  (∀ service,
     _service (self m) = Some service →
     ∃ s',
       heartbeat_turns n m = (Ok tt, mkMachine (self m) (heap m) s')
       ∧ requests (trace s')
         = (requests (trace (io m))
            ++ replicate n (service_request (self m) service))%list)
  ∧ (_service (self m) = None →
     heartbeat_turns (S n) m = (Raise (AttributeError "name"), m)).
Proof.
  split.
  - intros service Hs. revert m Hs. induction n as [|n IH]; intros m Hs.
    + exists (io m). simpl. rewrite app_nil_r. by destruct m.
    + destruct (IH (mkMachine (self m) (heap m)
                      (register_service (self m) service (io m)).2) Hs)
        as (s' & Hrun & Hreqs).
      exists s'. simpl in *. split.
      * unfold py_bind, heartbeat_turn. rewrite Hs.
        destruct (register_service (self m) service (io m)) as [r s1]. exact Hrun.
      * rewrite Hreqs. unfold register_service.
        rewrite bind_pure_snd, request_io. simpl.
        rewrite requests_app, <- app_assoc. reflexivity.
  - intros Hs. simpl. unfold py_bind, heartbeat_turn. by rewrite Hs.
Qed.

(** ** Registration, from end to end *)

(** X15. When the service registration itself raises, [register] raises
    the same exception after that single request, and nothing else has
    happened: the session keeps the service and routes it had, and none of
    the caller's route objects has been touched. *)
Theorem register_service_failure_changes_nothing (m : Machine) service routes e
    (s1 : IO) :
  register_service (self m) service (io m) = (Raise e, s1) →
  register service routes m = (Raise e, mkMachine (self m) (heap m) s1)
  ∧ s1 = exchanged send (service_request (self m) service) (io m).
Proof.
  intros Hsvc. split.
  - by apply register_service_failed.
  - pose proof (bind_pure_snd
                  (_request (self m) "POST" "/rincon/services"
                     (Some (Service.model_dump service)) None true)
                  (decode "Service" Service_model_validate) (io m)) as Hio.
    unfold register_service in Hsvc. rewrite Hsvc, request_io in Hio. done.
Qed.

(** X16. A [register] that returns has replaced the session's
    registration: the current service is the registry's answer, the route
    list is exactly the registry's answers to the supplied routes, in
    order, whatever the list held before; the heartbeat, the base URL and
    the credentials are as they were; and one request per route was sent
    after the one for the service. *)
Theorem register_replaces_session (m m' : Machine) service routes svc :
  register service routes m = (Ok svc, m') →
  ∃ s1 regs,
    register_service (self m) service (io m) = (Ok svc, s1)
    ∧ routes_accepted (self m) (Service.name svc) (heap m) (default [] routes)
        s1 regs (io m')
    ∧ self m' = set_routes regs (set_service (Some svc) (self m))
    ∧ length regs = length (default [] routes)
    ∧ length (trace (io m'))
      = length (trace (io m)) + 1 + length (default [] routes).
Proof.
  intros Hreg. apply register_ok_inv in Hreg as (s1 & Hsvc & Hloop).
  apply (register_each_ok _ _ svc (heap m)) in Hloop as (regs & Hacc & Hself & _);
    [|apply renamed_refl].
  simpl in Hacc, Hself. exists s1, regs.
  assert (routes_accepted (self m) (Service.name svc) (heap m)
            (default [] routes) s1 regs (io m')) as Hacc'.
  { clear -Hacc. revert Hacc. generalize (io m'), regs, s1, (default [] routes).
    intros s' regs' s ls. revert regs' s.
    induction ls as [|l ls IH]; intros regs' s Hacc; inversion Hacc; subst.
    - constructor.
    - econstructor; [done| |by apply IH].
      by rewrite <- (register_route_self _ _
                       (set_routes [] (set_service (Some svc) (self m)))). }
  split; [done|]. split; [done|]. split; [done|].
  destruct (routes_accepted_trace _ _ _ _ _ _ _ _ _ Hacc')
    as (Hlen & new & Htr & Hall).
  split; [done|]. rewrite Htr, length_app, <- (Forall2_length _ _ _ Hall).
  pose proof (bind_pure_snd
                (_request (self m) "POST" "/rincon/services"
                   (Some (Service.model_dump service)) None true)
                (decode "Service" Service_model_validate) (io m)) as Hio.
  unfold register_service in Hsvc. rewrite Hsvc, request_io in Hio.
  simpl in Hio. subst s1. simpl. rewrite length_app. simpl. lia.
Qed.

Lemma renamed_at_renamed name h0 done (h : gmap loc Route.t) :
  renamed_at name h0 done h → renamed name h0 h.
Proof. intros Hat l. rewrite (Hat l). case_decide; [by right|by left]. Qed.

Lemma renamed_at_assign name h0 done (h : gmap loc Route.t) (l : loc) r :
  renamed_at name h0 done h → h !! l = Some r →
  renamed_at name h0 (done ++ [l]) (<[l := Route.set_service_name name r]> h).
Proof.
  intros Hat Hl l'. destruct (decide (l' = l)) as [->|Hne].
  - rewrite lookup_insert_eq, decide_True by (apply elem_of_app; right; left).
    destruct (renamed_lookup name h0 h l r (renamed_at_renamed _ _ _ _ Hat) Hl)
      as (r0 & -> & ->). done.
  - rewrite lookup_insert_ne by done. rewrite (Hat l').
    destruct (decide (l' ∈ done)) as [Hin|Hnin].
    + by rewrite decide_True by (apply elem_of_app; by left).
    + rewrite decide_False; [done|].
      intros [?|[?|[]%elem_of_nil]%elem_of_cons]%elem_of_app; done.
Qed.

(** the store after the registry has accepted the first routes *)
Lemma register_each_accepted_store svc c h0 pre (s : IO) regs s' rest :
  routes_accepted c (Service.name svc) h0 pre s regs s' →
  ∀ (m : Machine) done,
    io m = s → _auth (self m) = _auth c → _base_url (self m) = _base_url c →
    renamed_at (Service.name svc) h0 done (heap m) →
    ∃ h1, renamed_at (Service.name svc) h0 (done ++ pre) h1
      ∧ register_each svc (pre ++ rest) m
        = register_each svc rest
            (mkMachine (set_routes (_routes (self m) ++ regs)%list (self m)) h1 s').
Proof.
  induction 1 as [s|route r pre s registered s1 regs s2 Hr Hreg _ IH];
    intros m done Hio Hauth Hurl Hat.
  - exists (heap m). rewrite app_nil_r. split; [done|].
    rewrite set_routes_nil_r. destruct m; simpl in *. by subst.
  - destruct (renamed_lookup_inv _ _ _ _ _ (renamed_at_renamed _ _ _ _ Hat) Hr)
      as (rj & Hl & Hsame).
    destruct (IH (mkMachine
                    (set_routes (_routes (self m) ++ [registered])%list (self m))
                    (<[route := Route.set_service_name (Service.name svc) rj]> (heap m))
                    s1) (done ++ [route])%list)
      as (h1 & Hat1 & Heq); [done|done|done|by apply renamed_at_assign|].
    exists h1. split.
    { by rewrite <- app_assoc in Hat1. }
    change ((route :: pre) ++ rest)%list with (route :: (pre ++ rest))%list.
    rewrite register_each_cons, Hl. cbv zeta.
    rewrite (register_route_self _ _ _ c _ _ Hauth Hurl), Hsame, Hio, Hreg.
    rewrite <- Hsame, Heq. simpl. by rewrite <- app_assoc.
Qed.

(** X17. When the k-th route registration raises, the caller's objects
    are left half renamed: the k-1 routes accepted before and the failing
    one carry the registered service's name, and every other object,
    among them the routes after the failing one that occur nowhere before,
    is as the caller made it. *)
Theorem register_partial_failure_store (m : Machine) service (pre : list loc)
    (route : loc) (post : list loc) svc (s1 : IO) regs s2 r e s3 :
  register_service (self m) service (io m) = (Ok svc, s1) →
  routes_accepted (self m) (Service.name svc) (heap m) pre s1 regs s2 →
  heap m !! route = Some r →
  register_route (self m) (Route.set_service_name (Service.name svc) r) s2
  = (Raise e, s3) →
  ∃ m',
    register service (Some (pre ++ route :: post)%list) m = (Raise e, m')
    ∧ ∀ l, heap m' !! l
           = if decide (l ∈ (pre ++ [route])%list)
             then Route.set_service_name (Service.name svc) <$> heap m !! l
             else heap m !! l.
Proof.
  intros Hsvc Hacc Hr Hfail.
  rewrite (register_after_service _ _ _ _ _ _ _ _ Hsvc). simpl default.
  destruct (register_each_accepted_store svc (self m) (heap m) pre s1 regs s2
              (route :: post) Hacc
              (mkMachine (set_routes [] (set_service (Some svc) (self m))) (heap m) s1)
              [])
    as (h1 & Hat1 & ->); [done|done|done| |].
  { intros l. by rewrite decide_False by apply not_elem_of_nil. }
  simpl in Hat1.
  destruct (renamed_lookup_inv _ _ _ _ _ (renamed_at_renamed _ _ _ _ Hat1) Hr)
    as (rj & Hl & Hsame).
  rewrite register_each_cons. simpl heap. rewrite Hl. cbv zeta.
  rewrite Hsame, (register_route_self _ _ _ (self m)) by done. simpl io.
  rewrite Hfail. eexists. split; [reflexivity|]. simpl.
  rewrite <- Hsame. by apply renamed_at_assign.
Qed.

(** ** Deregistration and teardown *)

(** X18. A [deregister] whose remote removal raises, on a session with a
    running heartbeat, has nevertheless stopped the heartbeat: the service
    and the routes are still the session's, but the stop event is set, the
    thread has been joined and forgotten, and the join precedes the failed
    request. *)
Theorem failed_deregister_has_stopped_heartbeat (m : Machine) service t e (s' : IO) :
  _service (self m) = Some service →
  _heartbeat_thread (self m) = Some t →
  is_alive t (world (io m)) = true →
  remove_service send (self m) (Service.id service)
    (mkIO (join t (world (io m))) (trace (io m) ++ [EvJoin t])%list)
  = (Raise e, s') →
  ∃ m',
    deregister m = (Raise e, m')
    ∧ _service (self m') = Some service
    ∧ _routes (self m') = _routes (self m)
    ∧ _heartbeat_thread (self m') = None
    ∧ _heartbeat_stop_event (self m') = true
    ∧ io m' = s'
    ∧ ∃ out, trace s'
             = (trace (io m)
                ++ [EvJoin t;
                    EvRequest (removal_request (self m) (Service.id service)) out])%list.
Proof.
  intros Hs Ht Halive Hrm.
  pose proof (remove_service_io send (self m) (Service.id service)
                (mkIO (join t (world (io m))) (trace (io m) ++ [EvJoin t])%list))
    as Hio.
  rewrite Hrm in Hio. simpl in Hio.
  unfold deregister, py_bind, get_self, call. rewrite Hs, stop_heartbeat_run.
  unfold heartbeat_running. rewrite Ht, Halive. simpl. rewrite Hs.
  unfold remove_service in *. unfold _request in *. simpl in *. rewrite Hrm.
  eexists. split; [reflexivity|]. simpl. repeat split; try done.
  eexists. rewrite Hio. simpl. by rewrite <- app_assoc.
Qed.

(** X19. [close] tears down the heartbeat and the transport and nothing
    else: it always returns, sends no request (the service stays
    registered at the registry), and leaves the session's service and
    routes and the caller's objects as they are; a heartbeat that was
    running has been stopped and forgotten. *)
Theorem close_keeps_registration (m : Machine) :
  ∃ m',
    close m = (Ok tt, m')
    ∧ _service (self m') = _service (self m)
    ∧ _routes (self m') = _routes (self m)
    ∧ heap m' = heap m
    ∧ requests (trace (io m')) = requests (trace (io m))
    ∧ (heartbeat_running m = true →
       _heartbeat_thread (self m') = None ∧ _heartbeat_stop_event (self m') = true).
Proof.
  unfold close, py_bind. rewrite stop_heartbeat_run.
  eexists. split; [reflexivity|]. simpl.
  destruct (heartbeat_running m) eqn:Hrun; [|done].
  destruct (_heartbeat_thread (self m)) as [t|] eqn:Ht.
  - simpl. repeat split. rewrite requests_app. simpl. by rewrite app_nil_r.
  - unfold heartbeat_running in Hrun. by rewrite Ht in Hrun.
Qed.

End MoreProperties.

(** * The further properties at work on the scripted registry *)

Lemma request_rincon_errors_witness :
  401%Z ≠ 200%Z
  ∧ status_code (RinconAuthError (JStr "Invalid credentials")) = Some 401%Z
  ∧ message (RinconAuthError (JStr "Invalid credentials")) = JStr "Invalid credentials".
Proof.
  exact (request_rincon_errors Mock.send Mock.client
           "POST" "/rincon/services" (Some (Service.model_dump Mock.svc)) None true
           (MockReads.io [Mock.error_json 401 "Invalid credentials"])
           (RinconAuthError (JStr "Invalid credentials")) eq_refl).
Defined.

Lemma register_service_returns_iff_witness :
  (register_service Mock.send Mock.Service_model_validate Mock.client Mock.svc
     (MockReads.io [Mock.ok_json Mock.SAMPLE_SERVICE])).1
  = Ok Mock.registered_svc.
Proof.
  apply (register_service_returns_iff Mock.send Mock.Service_model_validate).
  exists (mkResponse 200 "" (Some Mock.SAMPLE_SERVICE)), Mock.SAMPLE_SERVICE.
  repeat split.
Defined.

Lemma match_route_leading_slash_optional_witness :
  Mock.match_route Mock.client "/users/123" "GET"
    (MockReads.io [Mock.ok_json Mock.SAMPLE_SERVICE])
  = Mock.match_route Mock.client "users/123" "GET"
      (MockReads.io [Mock.ok_json Mock.SAMPLE_SERVICE]).
Proof.
  apply (match_route_leading_slash_optional Mock.send Mock.Service_model_validate).
  intros rest. discriminate.
Defined.

Lemma get_services_by_name_normalises_witness :
  (MockReads.get_services_by_name Mock.client "service_a"
     (MockReads.io [Mock.ok_json Mock.SAMPLE_SERVICE])).1
  = Ok [Mock.registered_svc]
  ∧ (MockReads.get_services_by_name Mock.client "service_a"
       (MockReads.io [Mock.ok_json (JArr [Mock.SAMPLE_SERVICE; Mock.SAMPLE_SERVICE])])).1
    = Ok [Mock.registered_svc; Mock.registered_svc]
  ∧ (MockReads.get_services_by_name Mock.client "nobody"
       (MockReads.io [Mock.ok_json (JArr [])])).1
    = Ok [].
Proof.
  split; [|split].
  - edestruct (get_services_by_name_normalises Mock.send Mock.Service_model_validate
                 Mock.client "service_a"
                 (MockReads.io [Mock.ok_json Mock.SAMPLE_SERVICE]))
      as (_ & Hone & _); [reflexivity|reflexivity|].
    apply (Hone Mock.SAMPLE_SERVICE); [reflexivity|discriminate|].
    exists Mock.registered_svc. split; reflexivity.
  - edestruct (get_services_by_name_normalises Mock.send Mock.Service_model_validate
                 Mock.client "service_a"
                 (MockReads.io
                    [Mock.ok_json (JArr [Mock.SAMPLE_SERVICE; Mock.SAMPLE_SERVICE])]))
      as (Hlist & _); [reflexivity|reflexivity|].
    apply (Hlist [Mock.SAMPLE_SERVICE; Mock.SAMPLE_SERVICE]); [reflexivity|].
    repeat constructor.
  - edestruct (get_services_by_name_normalises Mock.send Mock.Service_model_validate
                 Mock.client "nobody" (MockReads.io [Mock.ok_json (JArr [])]))
      as (Hlist & _); [reflexivity|reflexivity|].
    apply (Hlist []); [reflexivity|constructor].
Defined.

Lemma get_route_heads_get_routes_by_path_witness :
  (MockReads.get_routes_by_path Mock.client "/users"
     (MockReads.io [Mock.ok_json (JArr [Mock.SAMPLE_ROUTE])])).1
  = Ok [Mock.registered_route]
  ∧ (Mock.get_route Mock.client "/users" None None
       (MockReads.io [Mock.ok_json (JArr [Mock.SAMPLE_ROUTE])])).1
    = Ok Mock.registered_route.
Proof.
  split; [reflexivity|].
  destruct (get_route_heads_get_routes_by_path Mock.send Mock.Route_model_validate
              Mock.client "/users"
              (MockReads.io [Mock.ok_json (JArr [Mock.SAMPLE_ROUTE])]))
    as (Hhead & _).
  unfold Mock.get_route. erewrite Hhead; reflexivity.
Defined.

Lemma get_all_services_iterates_witness :
  (MockReads.get_all_services Mock.client
     (MockReads.io [Mock.ok_json (JArr [Mock.SAMPLE_SERVICE])])).1
  = Listed [Mock.registered_svc]
  ∧ (MockReads.get_all_services Mock.client
       (MockReads.io [Mock.ok_json JNull])).1
    = NotIterable
  ∧ (MockReads.get_all_services Mock.client
       (MockReads.io [Mock.ok_json Mock.SAMPLE_SERVICE])).1
    = ListingRaised (ValidationError "Service").
Proof.
  split; [|split].
  - edestruct (get_all_services_iterates Mock.send Mock.Service_model_validate
                 MockReads.str_items Mock.client
                 (MockReads.io [Mock.ok_json (JArr [Mock.SAMPLE_SERVICE])]))
      as (Hlist & _); [reflexivity|reflexivity|].
    apply (Hlist [Mock.SAMPLE_SERVICE]); [reflexivity|]. repeat constructor.
  - edestruct (get_all_services_iterates Mock.send Mock.Service_model_validate
                 MockReads.str_items Mock.client
                 (MockReads.io [Mock.ok_json JNull]))
      as (_ & Hnot & _); [reflexivity|reflexivity|].
    apply (Hnot JNull); [reflexivity|by left].
  - edestruct (get_all_services_iterates Mock.send Mock.Service_model_validate
                 MockReads.str_items Mock.client
                 (MockReads.io [Mock.ok_json Mock.SAMPLE_SERVICE]))
      as (_ & _ & _ & Hobject); [reflexivity|reflexivity|].
    eapply Hobject; reflexivity.
Defined.

Lemma heartbeat_restarts_after_stop_witness :
  ∃ t t',
    _heartbeat_thread (self (MockReads.beating [])) = Some t
    ∧ _heartbeat_thread (self (Mock.stop_heartbeat (MockReads.beating [])).2) = None
    ∧ _heartbeat_stop_event (self (Mock.stop_heartbeat (MockReads.beating [])).2) = true
    ∧ _heartbeat_thread
        (self (Mock.start_heartbeat 10%Z
                 (Mock.stop_heartbeat (MockReads.beating [])).2).2) = Some t'
    ∧ _heartbeat_stop_event
        (self (Mock.start_heartbeat 10%Z
                 (Mock.stop_heartbeat (MockReads.beating [])).2).2) = false
    ∧ trace (io (Mock.start_heartbeat 10%Z
                   (Mock.stop_heartbeat (MockReads.beating [])).2).2)
      = (trace (io (MockReads.beating [])) ++ [EvJoin t; EvThreadStart t'])%list.
Proof.
  apply (heartbeat_restarts_after_stop Mock.thread_start Mock.is_alive Mock.join
           10%Z (MockReads.beating []) _ _ Mock.registered_svc); reflexivity.
Defined.

Lemma heartbeat_survives_registry_failures_witness :
  ∃ s',
    MockReads.heartbeat_turns 3
      (MockReads.beating
         [Mock.ok_json Mock.SAMPLE_SERVICE; Mock.error_json 500 "registry down"])
    = (Ok tt,
       mkMachine
         (self (MockReads.beating
                  [Mock.ok_json Mock.SAMPLE_SERVICE; Mock.error_json 500 "registry down"]))
         ∅ s')
    ∧ requests (trace s')
      = replicate 3 (service_request MockReads.registered_client Mock.registered_svc).
Proof.
  exact (proj1 (heartbeat_survives_registry_failures Mock.send
                  Mock.Service_model_validate 3
                  (MockReads.beating
                     [Mock.ok_json Mock.SAMPLE_SERVICE;
                      Mock.error_json 500 "registry down"]))
           Mock.registered_svc eq_refl).
Defined.

Lemma register_service_failure_changes_nothing_witness :
  ∃ s1,
    Mock.register Mock.svc (Some [0])
      (Mock.start MockReads.registered_client
         [(0, Route.mk "" "/users" "GET" "billing" None)]
         [Mock.error_json 401 "Invalid credentials"])
    = (Raise (Rincon (RinconAuthError (JStr "Invalid credentials"))),
       mkMachine MockReads.registered_client
         {[0 := Route.mk "" "/users" "GET" "billing" None]} s1).
Proof.
  eexists.
  eapply (register_service_failure_changes_nothing Mock.send
            Mock.Service_model_validate Mock.Route_model_validate
            (Mock.start MockReads.registered_client
               [(0, Route.mk "" "/users" "GET" "billing" None)]
               [Mock.error_json 401 "Invalid credentials"])).
  vm_compute. reflexivity.
Defined.

Lemma register_replaces_session_witness :
  ∃ m',
    Mock.register Mock.svc (Some [0])
      (Mock.start
         (set_routes [Mock.registered_route; Mock.registered_route] Mock.client)
         [(0, Route.mk "" "/users" "GET,POST" "" None)]
         [Mock.ok_json Mock.SAMPLE_SERVICE; Mock.ok_json Mock.SAMPLE_ROUTE])
    = (Ok Mock.registered_svc, m')
    ∧ ∃ regs,
        self m'
        = set_routes regs
            (set_service (Some Mock.registered_svc)
               (set_routes [Mock.registered_route; Mock.registered_route] Mock.client))
        ∧ length regs = 1
        ∧ length (trace (io m')) = 2.
Proof.
  eexists. split; [vm_compute; reflexivity|].
  edestruct (register_replaces_session Mock.send Mock.Service_model_validate
               Mock.Route_model_validate)
    with (m := Mock.start
                 (set_routes [Mock.registered_route; Mock.registered_route] Mock.client)
                 [(0, Route.mk "" "/users" "GET,POST" "" None)]
                 [Mock.ok_json Mock.SAMPLE_SERVICE; Mock.ok_json Mock.SAMPLE_ROUTE])
         (service := Mock.svc) (routes := Some [0]) (svc := Mock.registered_svc)
    as (s1 & regs & _ & _ & Hself & Hlen & Htrace); [vm_compute; reflexivity|].
  exists regs. split; [exact Hself|]. split; [exact Hlen|exact Htrace].
Defined.

Lemma register_partial_failure_store_witness :
  ∃ m',
    Mock.register Mock.svc (Some [0; 1; 2])
      (Mock.start Mock.client
         [(0, Route.mk "" "/users" "GET,POST" "" None);
          (1, Route.mk "" "/users/all" "GET" "" None);
          (2, Route.mk "" "/orders" "GET" "" None)]
         [Mock.ok_json Mock.SAMPLE_SERVICE; Mock.ok_json Mock.SAMPLE_ROUTE;
          Mock.error_json 500 "route overlaps with existing routes"])
    = (Raise (Rincon (RinconConflictError (JStr "route overlaps with existing routes"))),
       m')
    ∧ heap m' !! 0 = Some (Route.mk "" "/users" "GET,POST" "service_a" None)
    ∧ heap m' !! 1 = Some (Route.mk "" "/users/all" "GET" "service_a" None)
    ∧ heap m' !! 2 = Some (Route.mk "" "/orders" "GET" "" None).
Proof.
  edestruct (register_partial_failure_store Mock.send Mock.Service_model_validate
               Mock.Route_model_validate
               (Mock.start Mock.client
                  [(0, Route.mk "" "/users" "GET,POST" "" None);
                   (1, Route.mk "" "/users/all" "GET" "" None);
                   (2, Route.mk "" "/orders" "GET" "" None)]
                  [Mock.ok_json Mock.SAMPLE_SERVICE; Mock.ok_json Mock.SAMPLE_ROUTE;
                   Mock.error_json 500 "route overlaps with existing routes"])
               Mock.svc [0] 1 [2])
    as (m' & Hrun & Hstore).
  - vm_compute. reflexivity.
  - econstructor; [vm_compute; reflexivity | vm_compute; reflexivity | constructor].
  - vm_compute. reflexivity.
  - vm_compute. reflexivity.
  - exists m'. split; [exact Hrun|].
    split; [exact (Hstore 0)|]. split; [exact (Hstore 1)|exact (Hstore 2)].
Defined.

Lemma failed_deregister_has_stopped_heartbeat_witness :
  ∃ m',
    Mock.deregister
      (MockReads.beating [Mock.error_json 404 "No service with id 820522 found"])
    = (Raise (Rincon (RinconNotFoundError (JStr "No service with id 820522 found"))),
       m')
    ∧ _service (self m') = Some Mock.registered_svc
    ∧ _heartbeat_thread (self m') = None
    ∧ _heartbeat_stop_event (self m') = true.
Proof.
  edestruct (failed_deregister_has_stopped_heartbeat Mock.send Mock.is_alive Mock.join
               (MockReads.beating
                  [Mock.error_json 404 "No service with id 820522 found"])
               Mock.registered_svc 0)
    as (m' & Hrun & Hservice & _ & Hthread & Hevent & _);
    [reflexivity | reflexivity | reflexivity | vm_compute; reflexivity |].
  exists m'. split; [exact Hrun|]. split; [exact Hservice|].
  split; [exact Hthread|exact Hevent].
Defined.
